(** * linux-auto-win: monitor fingerprinting and window placement

    A shallow embedding of [auto-win.py] (the monitor watcher) and
    [adjwin.py] (the window-placement tool), with the properties the
    design document states about them.

    Conventions of the embedding.
    - A Python [str] is a Rocq [string] holding the UTF-8 bytes of the text.
      Whitespace is the ASCII whitespace Python recognises (code points
      9-13, 28-31 and 32); case folding is the ASCII one.  Whitespace and
      digits outside ASCII are therefore plain characters here.
    - A Python exception is a value of [exn]; a call that may raise returns
      a [result].
    - A [dict] loaded from JSON is an association list in file order with
      pairwise distinct keys; the three-key identity dict of a monitor is a
      [gmap], compared extensionally as Python compares dicts.
    - Calls of external tools are events of a trace. *)

From Stdlib Require Import String Ascii ZArith List Bool Lia Permutation.
From stdpp Require Import base option list gmap strings.

Local Open Scope string_scope.
Local Open Scope list_scope.

(** ** Exceptions and results *)

Inductive exn : Type :=
| IndexError
| KeyError
| ValueError
| TypeError
| AttributeError
| RuntimeError (keys : list string)
| CalledProcessError (code : Z).

Inductive result (A : Type) : Type :=
| Ok (a : A)
| Raise (e : exn).
Arguments Ok {A} a.
Arguments Raise {A} e.

Definition rbind {A B} (r : result A) (k : A -> result B) : result B :=
  match r with
  | Ok a => k a
  | Raise e => Raise e
  end.

Notation "x <-- r ;; k" := (rbind r (fun x => k))
  (at level 100, r at next level, right associativity,
   format "'[v' x  <--  r  ;;  '/' k ']'").

Definition is_ok {A} (r : result A) : bool :=
  match r with Ok _ => true | Raise _ => false end.

(** ** Python string primitives *)

Module PyStr.

(** [str.isspace] on one ASCII character. *)
Definition isspace (c : ascii) : bool :=
  let n := nat_of_ascii c in
  ((9 <=? n) && (n <=? 13) || (28 <=? n) && (n <=? 32))%nat.

(** [str.lower], ASCII letters. *)
Definition lower_char (c : ascii) : ascii :=
  let n := nat_of_ascii c in
  if ((65 <=? n) && (n <=? 90))%nat then ascii_of_nat (n + 32) else c.

Fixpoint lower (s : string) : string :=
  match s with
  | EmptyString => EmptyString
  | String c s' => String (lower_char c) (lower s')
  end.

(** [s.startswith(p)] *)
Definition startswith (p s : string) : bool := String.prefix p s.

(** [needle in hay] *)
Fixpoint contains (needle hay : string) : bool :=
  String.prefix needle hay ||
  match hay with
  | EmptyString => false
  | String _ hay' => contains needle hay'
  end.

(** [s.split(sep)] for a one-character separator: never empty. *)
Fixpoint split_on (sep : ascii) (s : string) : list string :=
  match s with
  | EmptyString => [EmptyString]
  | String c s' =>
      if Ascii.eqb c sep then EmptyString :: split_on sep s'
      else match split_on sep s' with
           | [] => [String c EmptyString]
           | w :: ws => String c w :: ws
           end
  end.

Definition newline : ascii := ascii_of_nat 10.

(** [s.lstrip()], [s.rstrip()], [s.strip()] *)
Fixpoint lstrip (s : string) : string :=
  match s with
  | EmptyString => EmptyString
  | String c s' => if isspace c then lstrip s' else s
  end.

Fixpoint rstrip (s : string) : string :=
  match s with
  | EmptyString => EmptyString
  | String c s' =>
      match rstrip s' with
      | EmptyString => if isspace c then EmptyString else String c EmptyString
      | r => String c r
      end
  end.

Definition strip (s : string) : string := rstrip (lstrip s).

(** The text does not start with a blank. *)
Definition head_nonspace (t : string) : Prop :=
  match t with
  | EmptyString => True
  | String c _ => isspace c = false
  end.

(** [s.split(maxsplit=k)] with no separator, one pass over the string as
    CPython's [split_whitespace] does it: [k] counts the words that may
    still be cut off, [cur] is the word being read (if any).  When no cut
    is left, the rest of the string from the next non-blank character on is
    the last item, trailing blanks included. *)
Fixpoint split_go (k : nat) (cur : option string) (s : string) : list string :=
  match s with
  | EmptyString => match cur with Some w => [w] | None => [] end
  | String c s' =>
      if isspace c then
        match cur with
        | Some w => w :: split_go k None s'
        | None => split_go k None s'
        end
      else
        match cur with
        | Some w => split_go k (Some (w +:+ String c EmptyString)) s'
        | None =>
            match k with
            | O => [s]
            | S k' => split_go k' (Some (String c EmptyString)) s'
            end
        end
  end.

(** [s.split()]: every word is cut off. *)
Fixpoint words_go (cur : option string) (s : string) : list string :=
  match s with
  | EmptyString => match cur with Some w => [w] | None => [] end
  | String c s' =>
      if isspace c then
        match cur with
        | Some w => w :: words_go None s'
        | None => words_go None s'
        end
      else
        match cur with
        | Some w => words_go (Some (w +:+ String c EmptyString)) s'
        | None => words_go (Some (String c EmptyString)) s'
        end
  end.

Definition split (s : string) : list string := words_go None s.
Definition split_max (k : nat) (s : string) : list string := split_go k None s.

(** [int(s)] for a field cut by [split]: an optional sign, then decimal
    digits, groups of digits possibly joined by single underscores. *)
Definition digit_val (c : ascii) : option Z :=
  let n := nat_of_ascii c in
  if ((48 <=? n) && (n <=? 57))%nat then Some (Z.of_nat (n - 48)) else None.

Definition underscore : ascii := ascii_of_nat 95.

(** [acc] is the value read so far, [after_digit] tells whether the
    previous character was a digit (an underscore needs one on each
    side). *)
Fixpoint digits_go (acc : Z) (after_digit : bool) (s : string) : option Z :=
  match s with
  | EmptyString => if after_digit then Some acc else None
  | String c s' =>
      match digit_val c with
      | Some d => digits_go (10 * acc + d) true s'
      | None =>
          if Ascii.eqb c underscore && after_digit then
            match s' with
            | EmptyString => None
            | String c' _ =>
                match digit_val c' with
                | Some _ => digits_go acc false s'
                | None => None
                end
            end
          else None
      end
  end.

Definition int (s : string) : result Z :=
  let body sign t :=
    match digits_go 0 false t with
    | Some v => Ok (sign * v)%Z
    | None => Raise ValueError
    end in
  match strip s with
  | String "+" t => body 1%Z t
  | String "-" t => body (-1)%Z t
  | t => body 1%Z t
  end.

(** [l[i]] on a list *)
Definition index {A} (l : list A) (i : nat) : result A :=
  match l !! i with
  | Some x => Ok x
  | None => Raise IndexError
  end.

End PyStr.

(** ** The configuration file, shared by the two tools

    A JSON object: the key [_mon_map_] holds the monitor map, every other
    key a profile, the list of its placement rules.  The monitor map maps
    the key ['built in'] to the record of the laptop panel and every other
    key to a list of identity dicts. *)

Module Config.

Record BuiltIn : Type := mkBuiltIn {
  bi_manufacturer : string;
  bi_model : string;
  bi_map : string
}.

Inductive mon_value : Type :=
| MBuiltIn (bi : BuiltIn)
| MList (mlist : list (gmap string string)).

(** A placement rule of a profile. *)
Record Rule : Type := mkRule {
  r_name : string;
  r_xoff : Z;
  r_yoff : Z;
  r_width : Z;
  r_height : Z;
  r_desk : Z
}.

Inductive conf_value : Type :=
| CProfile (rules : list Rule)
| CMonMap (mm : list (string * mon_value)).

Definition Conf : Type := list (string * conf_value).

(** [d[k]] and [k in d] on a dict kept as an association list. *)
Fixpoint dict_get {V} (k : string) (d : list (string * V)) : option V :=
  match d with
  | [] => None
  | (k', v) :: d' => if String.eqb k k' then Some v else dict_get k d'
  end.

Definition getitem {V} (d : list (string * V)) (k : string) : result V :=
  match dict_get k d with
  | Some v => Ok v
  | None => Raise KeyError
  end.

Definition dict_keys {V} (d : list (string * V)) : list string := map fst d.

End Config.

(** ** The monitor watcher, [auto-win.py] *)

Module AutoWin.
Import Config.

Definition MON_MAP : string := "_mon_map_".
Definition UNKNOWN_STATE : string := "unknown".
Definition SYS_PATH : string := "/sys/class/drm".

(** [class Monitor] *)
Record Monitor : Type := mkMonitor {
  manufacturer : string;
  model : string;
  serial : string;
  built_in : bool
}.

(** [Monitor.as_dict]: the identity without the built-in flag. *)
Definition as_dict (m : Monitor) : gmap string string :=
  <["manufacturer" := manufacturer m]>
    (<["model" := model m]>
       (<["serial" := serial m]> ∅)).

(** [conf[MON_MAP]['built in']], read as the record of the panel.
    Subscripting a list by a string is a [TypeError]. *)
Definition conf_built_in (conf : Conf) : result BuiltIn :=
  v <-- getitem conf MON_MAP ;;
  match v with
  | CProfile _ => Raise TypeError
  | CMonMap mm =>
      e <-- getitem mm "built in" ;;
      match e with
      | MBuiltIn bi => Ok bi
      | MList _ => Raise TypeError
      end
  end.

(** [conf[MON_MAP].items()]; a list has no [items]. *)
Definition conf_mon_items (conf : Conf) : result (list (string * mon_value)) :=
  v <-- getitem conf MON_MAP ;;
  match v with
  | CProfile _ => Raise AttributeError
  | CMonMap mm => Ok mm
  end.

(** *** The serial-number pattern

    [serial_reg]: the word serial, blanks, the word number and a colon,
    blanks, an optional single or double quote, then the group, one or more
    characters that are neither quote nor blank; letters in any case
    ([re.I]).  At one start position the pattern has one way to match: each
    run of blanks is followed by something that is no blank, so it takes
    every blank; the optional quote is taken when it is there (skipping it
    leaves the group at a quote, where it cannot start). *)
Definition is_quote (c : ascii) : bool :=
  Ascii.eqb c "'"%char || Ascii.eqb c (ascii_of_nat 34).

(** [s] starts with the lower-case word [p] in any case: the rest. *)
Fixpoint prefix_ci (p s : string) : option string :=
  match p with
  | EmptyString => Some s
  | String a p' =>
      match s with
      | EmptyString => None
      | String c s' =>
          if Ascii.eqb (PyStr.lower_char c) a then prefix_ci p' s' else None
      end
  end.

(** A run of blanks: at least one, then all of them. *)
Definition blanks (s : string) : option string :=
  match s with
  | String c s' => if PyStr.isspace c then Some (PyStr.lstrip s') else None
  | EmptyString => None
  end.

(** The group: the longest run of characters that are no quote and no blank. *)
Fixpoint group_run (s : string) : string :=
  match s with
  | EmptyString => EmptyString
  | String c s' =>
      if is_quote c || PyStr.isspace c then EmptyString
      else String c (group_run s')
  end.

Definition serial_match_at (s : string) : option string :=
  s1 ← prefix_ci "serial" s;
  s2 ← blanks s1;
  s3 ← prefix_ci "number:" s2;
  s4 ← blanks s3;
  let s5 := match s4 with
            | String c s' => if is_quote c then s' else s4
            | EmptyString => s4
            end in
  match group_run s5 with
  | EmptyString => None
  | g => Some g
  end.

(** [serial_reg.search(line)]: group 1 of the leftmost match. *)
Fixpoint serial_search (line : string) : option string :=
  match serial_match_at line with
  | Some g => Some g
  | None =>
      match line with
      | EmptyString => None
      | String _ line' => serial_search line'
      end
  end.

(** *** [get_mon_from_edid]

    The loop over the lines, with the three accumulators.  Falling off the
    end of the loop returns [None]. *)
Fixpoint scan_edid (bi : BuiltIn) (mfctr model serial : string)
    (lines : list string) : result (option Monitor) :=
  match lines with
  | [] => Ok None
  | line :: rest =>
      if PyStr.contains "manufacturer:" (PyStr.lower line) then
        w <-- PyStr.index (PyStr.split line) 1 ;;
        scan_edid bi w model serial rest
      else if PyStr.contains "model:" (PyStr.lower line) then
        w <-- PyStr.index (PyStr.split line) 1 ;;
        scan_edid bi mfctr w serial rest
      else
        match serial_search line with
        | Some g => scan_edid bi mfctr model g rest
        | None =>
            if negb (String.eqb serial "") then
              Ok (Some (mkMonitor mfctr model serial false))
            else if String.eqb mfctr (bi_manufacturer bi)
                    && String.eqb model (bi_model bi) then
              Ok (Some (mkMonitor mfctr model serial true))
            else scan_edid bi mfctr model serial rest
        end
  end.

Definition get_mon_from_edid (edid_info : string) (bi : BuiltIn)
  : result (option Monitor) :=
  scan_edid bi "" "" "" (PyStr.split_on PyStr.newline edid_info).

(** *** [get_conn_monitors]

    An entry of [/sys/class/drm]: its name and, when it has an [edid] file,
    what [edid-decode] prints for it. *)
Record DrmEntry : Type := mkDrm {
  d_name : string;
  d_edid : option string
}.

Definition edid_path (d : string) : string :=
  SYS_PATH +:+ "/" +:+ d +:+ "/edid".

(** [get_edid_info] on the output [out] of the decoder for [path]. *)
Definition get_edid_info (path out : string) : option string :=
  if PyStr.startswith ("EDID of '" +:+ path +:+ "' was empty") out
  then None else Some out.

(** The loop of [get_conn_monitors]; whatever [get_mon_from_edid] returns
    is appended, [None] included. *)
Fixpoint conn_loop (bi : BuiltIn) (entries : list DrmEntry)
    (monitors : list (option Monitor)) : result (list (option Monitor)) :=
  match entries with
  | [] => Ok monitors
  | d :: rest =>
      match d_edid d with
      | None => conn_loop bi rest monitors
      | Some out =>
          match get_edid_info (edid_path (d_name d)) out with
          | None => conn_loop bi rest monitors
          | Some info =>
              m <-- get_mon_from_edid info bi ;;
              conn_loop bi rest (monitors ++ [m])
          end
      end
  end.

Definition get_conn_monitors (entries : list DrmEntry) (conf : Conf)
  : result (list (option Monitor)) :=
  bi <-- conf_built_in conf ;;
  conn_loop bi entries [].

(** *** [is_mon_match] *)
Definition is_mon_match (mons : list Monitor)
    (mlist : list (gmap string string)) : bool :=
  if negb (length mons =? length mlist)%nat then false
  else forallb (fun d => bool_decide (d ∈ mlist)) (map as_dict mons).

(** *** [get_cur_state_name] *)

(** [m.built_in]; [None] has no such attribute. *)
Definition attr_built_in (m : option Monitor) : result bool :=
  match m with
  | Some m => Ok (built_in m)
  | None => Raise AttributeError
  end.

(** [[m for m in mons if not m.built_in]] *)
Fixpoint drop_built_in (mons : list (option Monitor)) : result (list Monitor) :=
  match mons with
  | [] => Ok []
  | None :: _ => Raise AttributeError
  | Some m :: rest =>
      tl <-- drop_built_in rest ;;
      Ok (if built_in m then tl else m :: tl)
  end.

(** The loop over [conf[MON_MAP].items()].  Under a key other than
    ['built in'] the format has a list; a dict of the panel's three keys
    there has length 3, and looking a dict up in a dict raises (dicts are
    not hashable). *)
Fixpoint match_loop (mons : list Monitor) (items : list (string * mon_value))
  : result (option string) :=
  match items with
  | [] => Ok None
  | (name, v) :: rest =>
      if String.eqb name "built in" then match_loop mons rest
      else
        match v with
        | MList mlist =>
            if is_mon_match mons mlist then Ok (Some name)
            else match_loop mons rest
        | MBuiltIn _ =>
            if negb (length mons =? 3)%nat then match_loop mons rest
            else Raise TypeError
        end
  end.

Definition get_cur_state_name (mons : list (option Monitor)) (conf : Conf)
  : result (option string) :=
  single <-- match mons with
             | [m] => attr_built_in m
             | _ => Ok false
             end ;;
  if single then
    bi <-- conf_built_in conf ;;
    Ok (Some (bi_map bi))
  else
    mons' <-- drop_built_in mons ;;
    items <-- conf_mon_items conf ;;
    match_loop mons' items.

(** *** [adjust_windows] and [main]

    What a run does to the outside: a warning in the log, a call of the
    placement tool, a write of the state file, the lines on standard output
    of a run that only lists the monitors. *)
Inductive event : Type :=
| Warn
| RunAdjwin (state : string)
| WriteState (state : string)
| PrintHeader
| PrintMon (m : option Monitor).

(** The outside of one run: the connected outputs, the content of the
    state file ([None]: no such file) and the exit status the placement
    tool would end with for a profile. *)
Record World : Type := mkWorld {
  w_drm : list DrmEntry;
  w_state_file : option string;
  w_adjwin_exit : string -> Z
}.

(** A run: its events in order, the state file it leaves, and how it ends
    (the value [main] returns, or the exception that escapes). *)
Record Run : Type := mkRun {
  run_events : list event;
  run_state_file : option string;
  run_result : result Z
}.

(** [get_state] *)
Definition get_state (w : World) : option string := w_state_file w.

(** [adjust_windows]; [sp.run(..., check=True)] raises on a non-zero
    exit, before the state is saved. *)
Definition adjust_windows (cur_state : string) (w : World) (evs : list event)
  : Run :=
  let go evs' :=
    mkRun (evs' ++ [WriteState cur_state]) (Some cur_state) (Ok 0%Z) in
  if negb (String.eqb cur_state UNKNOWN_STATE) then
    let code := w_adjwin_exit w cur_state in
    if (code =? 0)%Z then go (evs ++ [RunAdjwin cur_state])
    else mkRun (evs ++ [RunAdjwin cur_state]) (w_state_file w)
               (Raise (CalledProcessError code))
  else go evs.

Definition main (monitors_only : bool) (conf : Conf) (w : World) : Run :=
  let state := get_state w in
  match get_conn_monitors (w_drm w) conf with
  | Raise e => mkRun [] (w_state_file w) (Raise e)
  | Ok mons =>
      if monitors_only then
        mkRun (PrintHeader :: map PrintMon mons) (w_state_file w) (Ok 0%Z)
      else
        match get_cur_state_name mons conf with
        | Raise e => mkRun [] (w_state_file w) (Raise e)
        | Ok cur =>
            let '(cur_state, evs) :=
              match cur with
              | None => (UNKNOWN_STATE, [Warn])
              | Some name => (name, [])
              end in
            if bool_decide (state = Some cur_state) then
              mkRun evs (w_state_file w) (Ok 0%Z)
            else adjust_windows cur_state w evs
        end
  end.

(** The exit status of the process: what [main] returns, 1 when an
    exception escapes. *)
Definition exit_status (r : Run) : Z :=
  match run_result r with
  | Ok code => code
  | Raise _ => 1%Z
  end.

(** The world the next run finds when nothing outside changed. *)
Definition after (w : World) (r : Run) : World :=
  mkWorld (w_drm w) (run_state_file r) (w_adjwin_exit w).

End AutoWin.

(** ** The window-placement tool, [adjwin.py] *)

Module AdjWin.
Import Config.

(** [class ProcInfo]: one open window. *)
Record ProcInfo : Type := mkProcInfo {
  wid : string;
  desktop : Z;
  pid : Z;
  xpos : Z;
  ypos : Z;
  width : Z;
  height : Z;
  name : string;
  shell : bool
}.

(** *** The process table

    [_get_procs] on the output of the process listing: the fields of each
    line, by pid; a later line of the same pid replaces an earlier one. *)
Fixpoint procs_loop (lines : list string) (ret : gmap Z (list string))
  : result (gmap Z (list string)) :=
  match lines with
  | [] => Ok ret
  | line :: rest =>
      let line := PyStr.strip line in
      if PyStr.startswith "USER" line || String.eqb line "" then
        procs_loop rest ret
      else
        let parts := PyStr.split_max 10 (PyStr.strip line) in
        f <-- PyStr.index parts 1 ;;
        k <-- PyStr.int f ;;
        procs_loop rest (<[k := parts]> ret)
  end.

Definition _get_procs (ps_out : string) : result (gmap Z (list string)) :=
  procs_loop (PyStr.split_on PyStr.newline ps_out) ∅.

(** A computation over the module-level [PROC_CACHE]: it may raise, or
    return a value and the cache it leaves. *)
Definition Cached (A : Type) : Type :=
  gmap Z (list string) -> result (A * gmap Z (list string)).

Definition cret {A} (a : A) : Cached A := fun c => Ok (a, c).

Definition cbind {A B} (m : Cached A) (k : A -> Cached B) : Cached B :=
  fun c => match m c with
           | Ok (a, c') => k a c'
           | Raise e => Raise e
           end.

Definition clift {A} (r : result A) : Cached A :=
  fun c => match r with Ok a => Ok (a, c) | Raise e => Raise e end.

Notation "x <~ m ;; k" := (cbind m (fun x => k))
  (at level 100, m at next level, right associativity).

(** The cache is empty, or holds the table of the process listing. *)
Definition cache_ok (ps_out : string) (cache : gmap Z (list string)) : Prop :=
  cache = ∅ \/ _get_procs ps_out = Ok cache.

(** [ProcInfo.is_shell]: the table is built when the cache is empty, then
    the command of the window's process is looked up in it. *)
Definition is_shell (ps_out : string) (pid : Z) : Cached bool :=
  fun cache =>
    cache' <-- (if bool_decide (cache = ∅) then _get_procs ps_out
                else Ok cache) ;;
    match cache' !! pid with
    | None => Raise KeyError
    | Some parts =>
        cmd <-- PyStr.index parts 10 ;;
        Ok (PyStr.contains "gnome-terminal" cmd, cache')
    end.

(** [ProcInfo._parse_input] on the stripped line. *)
Definition _parse_input (ps_out : string) (line : string) : Cached ProcInfo :=
  let i := PyStr.split_max 8 line in
  wid <~ clift (PyStr.index i 0) ;;
  desktop <~ clift (f <-- PyStr.index i 1 ;; PyStr.int f) ;;
  pid <~ clift (f <-- PyStr.index i 2 ;; PyStr.int f) ;;
  xpos <~ clift (f <-- PyStr.index i 3 ;; PyStr.int f) ;;
  ypos <~ clift (f <-- PyStr.index i 4 ;; PyStr.int f) ;;
  width <~ clift (f <-- PyStr.index i 5 ;; PyStr.int f) ;;
  height <~ clift (f <-- PyStr.index i 6 ;; PyStr.int f) ;;
  name <~ clift (PyStr.index i 8) ;;
  shell <~ is_shell ps_out pid ;;
  cret (mkProcInfo wid desktop pid xpos ypos width height name shell).

(** [ProcInfo(input_line)] *)
Definition new_ProcInfo (ps_out : string) (input_line : string)
  : Cached ProcInfo :=
  _parse_input ps_out (PyStr.strip input_line).

(** *** [get_proc_info]: the loop over the lines of the window listing;
    nothing catches what a line raises. *)
Fixpoint info_loop (ps_out : string) (lines : list string)
    (ret : list ProcInfo) : Cached (list ProcInfo) :=
  match lines with
  | [] => cret ret
  | line :: rest =>
      if String.eqb (PyStr.strip line) "" then info_loop ps_out rest ret
      else
        pi <~ new_ProcInfo ps_out line ;;
        info_loop ps_out rest (ret ++ [pi])
  end.

Definition get_proc_info (wl_out ps_out : string) : Cached (list ProcInfo) :=
  info_loop ps_out (PyStr.split_on PyStr.newline wl_out) [].

(** *** [set_window]: the two calls of the window manager, in order. *)
Inductive wm_cmd : Type :=
| MoveResize (wid : string) (xoff yoff width height : Z)
| ToDesktop (wid : string) (desk : Z).

Definition set_window (wid : string) (prof : Rule) : list wm_cmd :=
  [ MoveResize wid (r_xoff prof) (r_yoff prof) (r_width prof) (r_height prof);
    ToDesktop wid (r_desk prof) ].

(** *** [move_windows] *)

(** The inner loop: position and record of the first window whose title
    contains the rule's name. *)
Fixpoint find_window (i : nat) (win : Rule) (procs : list ProcInfo)
  : option (nat * ProcInfo) :=
  match procs with
  | [] => None
  | pi :: rest =>
      if PyStr.contains (r_name win) (name pi) then Some (i, pi)
      else find_window (S i) win rest
  end.

(** The outer loop over the rules: the calls [set_window(pi.wid, win)] made,
    in order, as pairs of the window and the rule, and the list [procs] as
    the deletions leave it. *)
Fixpoint move_loop (prof : list Rule) (procs : list ProcInfo)
  : list (ProcInfo * Rule) * list ProcInfo :=
  match prof with
  | [] => ([], procs)
  | win :: rest =>
      match find_window 0 win procs with
      | Some (to_rem, pi) =>
          let '(calls, procs') := move_loop rest (delete to_rem procs) in
          ((pi, win) :: calls, procs')
      | None => move_loop rest procs
      end
  end.

Definition commands (calls : list (ProcInfo * Rule)) : list wm_cmd :=
  flat_map (fun '(pi, win) => set_window (wid pi) win) calls.

(** What [move_windows] leaves: the commands issued, the list [procs], and
    the exception if one escaped. *)
Record Moved : Type := mkMoved {
  mv_calls : list (ProcInfo * Rule);
  mv_procs : list ProcInfo;
  mv_result : result unit
}.

(** [move_windows(procs, conf, args)].  When the profile name is the key of
    the monitor map, the loop runs over the keys of that dict, and
    [win['name']] on a string raises as soon as it is evaluated. *)
Definition move_windows (procs : list ProcInfo) (conf : Conf)
    (profile : string) : Moved :=
  match getitem conf profile with
  | Raise e => mkMoved [] procs (Raise e)
  | Ok (CProfile prof) =>
      let '(calls, procs') := move_loop prof procs in
      mkMoved calls procs' (Ok tt)
  | Ok (CMonMap mm) =>
      match mm, procs with
      | _ :: _, _ :: _ => mkMoved [] procs (Raise TypeError)
      | _, _ => mkMoved [] procs (Ok tt)
      end
  end.

(** [main]: the commands sent to the window manager and how the process
    ends. *)
Definition main (profile : string) (conf : Conf) (wl_out ps_out : string)
  : list wm_cmd * result unit :=
  match get_proc_info wl_out ps_out ∅ with
  | Raise e => ([], Raise e)
  | Ok (procs, _) =>
      if negb (bool_decide (is_Some (dict_get profile conf))) then
        ([], Raise (RuntimeError (dict_keys conf)))
      else
        let m := move_windows procs conf profile in
        (commands (mv_calls m), mv_result m)
  end.

(** The exit status of the process: 1 when an exception escapes. *)
Definition exit_status (r : result unit) : Z :=
  match r with
  | Ok _ => 0%Z
  | Raise _ => 1%Z
  end.

(** The rules a profile name stands for; none when it names no profile. *)
Definition rules_of (conf : Conf) (profile : string) : list Rule :=
  match dict_get profile conf with
  | Some (CProfile prof) => prof
  | _ => []
  end.

(** *** What the inventory asks of its input *)

(** The number of whitespace-separated fields of a line. *)
Definition fields (line : string) : nat := length (PyStr.split line).

(** A line of the process listing that [_get_procs] accepts: the header,
    a blank line, or a line of two fields or more whose second field is an
    integer. *)
Definition process_line_ok (l : string) : Prop :=
  PyStr.startswith "USER" (PyStr.strip l) = true \/
  PyStr.strip l = "" \/
  (2 <= fields l /\
   exists f k, PyStr.split l !! 1 = Some f /\ PyStr.int f = Ok k).

(** A line of the window listing for which a record is built: a blank
    line is passed over; any other line has nine fields or more, the
    process listing was accepted, and the window's pid, the third field,
    is a key of the process table, under which the table holds the fields
    of a process line of eleven fields or more. *)
Definition window_line_ok (ps_out line : string) : Prop :=
  PyStr.strip line = "" \/
  (9 <= fields line /\
   exists f pid table parts l,
     PyStr.split line !! 2 = Some f /\ PyStr.int f = Ok pid /\
     _get_procs ps_out = Ok table /\
     Forall process_line_ok (PyStr.split_on PyStr.newline ps_out) /\
     table !! pid = Some parts /\
     l ∈ PyStr.split_on PyStr.newline ps_out /\
     parts = PyStr.split_max 10 (PyStr.strip l) /\
     11 <= fields l).

End AdjWin.

(** ** Trace predicates of the watcher *)

Module Trace.
Import AutoWin.

Definition is_placement (e : event) : bool :=
  match e with RunAdjwin _ => true | _ => false end.

Definition is_write (e : event) : bool :=
  match e with WriteState _ => true | _ => false end.

(** The placement calls of a run, and the writes of the state file. *)
Definition placements (r : Run) : list event :=
  List.filter is_placement (run_events r).
Definition writes (r : Run) : list event :=
  List.filter is_write (run_events r).

(** The state a run settles on: the classifier's name, or the sentinel. *)
Definition state_of (cur : option string) : string :=
  match cur with
  | Some name => name
  | None => UNKNOWN_STATE
  end.

(** The warning of a run that found no configured set. *)
Definition warnings (cur : option string) : list event :=
  match cur with
  | Some _ => []
  | None => [Warn]
  end.

(** A run that left everything as it was: no placement call, no write of
    the state file, the file as before, and a normal end with status 0. *)
Definition noop (w : World) (r : Run) : Prop :=
  placements r = [] /\ writes r = [] /\
  run_state_file r = w_state_file w /\ run_result r = Ok 0%Z.

End Trace.

(** ** Sample inputs *)

Module Samples.
Import Config AutoWin.

Definition nl : string := String PyStr.newline EmptyString.

(** The text with the given lines, joined by newlines. *)
Definition text (lines : list string) : string := String.concat nl lines.

Definition panel : BuiltIn := mkBuiltIn "BOE" "1846" "laptop".

Definition MonA : Monitor := mkMonitor "DEL" "41189" "A1" false.
Definition MonB : Monitor := mkMonitor "DEL" "41189" "B2" false.
Definition MonC : Monitor := mkMonitor "ACME" "X1" "SN123" false.
Definition MonPanel : Monitor := mkMonitor "BOE" "1846" "" true.

Definition layout : list Rule :=
  [ mkRule "Firefox" 0 0 1280 1024 0; mkRule "fire" 1280 0 1280 1024 1 ].

(** Two named sets, the second of which lists the panel's own triple. *)
Definition conf0 : Conf :=
  [ ("work", CProfile layout);
    ("laptop", CProfile layout);
    (MON_MAP, CMonMap
       [ ("built in", MBuiltIn panel);
         ("work", MList [as_dict MonA; as_dict MonB]);
         ("home", MList [as_dict MonPanel]) ]) ].

(** A descriptor of an external monitor that reports no serial number. *)
Definition edid_no_serial : string :=
  text [ "  Vendor & Product Identification:";
         "    Manufacturer: DEL";
         "    Model: 41189";
         "    Made in: week 5 of 2020" ].

(** A descriptor that ends with its serial-number line, and the same with
    one more line after it. *)
Definition edid_serial_last : string :=
  text [ "    Manufacturer: ACME";
         "    Model: X1";
         "    Serial Number: SN123" ].

Definition edid_serial_then_more : string :=
  text [ "    Manufacturer: ACME";
         "    Model: X1";
         "    Serial Number: SN123";
         "    Made in: week 5 of 2020" ].

Definition edid_panel : string :=
  text [ "    Manufacturer: BOE";
         "    Model: 1846";
         "    Made in: 2019" ].

Definition world_of (edids : list string) (state : option string) : World :=
  mkWorld (map (fun e => mkDrm "card0-DP-1" (Some e)) edids) state (fun _ => 0%Z).

End Samples.

Module WinSamples.
Import Config AdjWin Samples.

Definition win1 : ProcInfo :=
  mkProcInfo "0x03a00003" 0 4242 0 0 1280 1024 "Mozilla Firefox" false.
Definition win2 : ProcInfo :=
  mkProcInfo "0x03a00007" 0 4242 10 10 800 600 "firefox — private" false.

Definition rule1 : Rule := mkRule "Firefox" 0 0 1280 1024 0.
Definition rule2 : Rule := mkRule "fire" 1280 0 1280 1024 1.

(** A window listing of one window of process 5, and a process listing in
    which another process has a line of two fields only. *)
Definition wl0 : string :=
  text [ "0x03a00003  0 5  10 20 300 400 host My Title here"; "" ].

Definition ps0 : string :=
  text [ "USER PID %CPU %MEM VSZ RSS TTY STAT START TIME COMMAND";
         "u 5 0.0 0.1 100 200 ? Ss 10:00 0:00 /usr/bin/gnome-terminal --x";
         "v 6";
         "" ].

(** A window of pid 0, which no process has. *)
Definition wl_pid0 : string :=
  text [ "0x03a00003  0 5  10 20 300 400 host My Title here";
         "0x01200004 -1 0  0 0 1920 1080 host Desktop";
         "" ].

End WinSamples.

(** ** The desktop queries of [adjwin.py] *)

Module Desk.

(** [get_current_desktop] on the output of the desktop listing: the number
    of the first line whose second field is a star; [None] when the loop
    ends. *)
Fixpoint desktop_loop (lines : list string) : result (option Z) :=
  match lines with
  | [] => Ok None
  | line :: rest =>
      let parts := PyStr.split line in
      mark <-- PyStr.index parts 1 ;;
      if String.eqb mark "*" then
        f <-- PyStr.index parts 0 ;;
        d <-- PyStr.int f ;;
        Ok (Some d)
      else desktop_loop rest
  end.

Definition get_current_desktop (out : string) : result (option Z) :=
  desktop_loop (PyStr.split_on PyStr.newline out).

(** [[int(i) for i in l]] *)
Fixpoint ints (l : list string) : result (list Z) :=
  match l with
  | [] => Ok []
  | f :: rest =>
      z <-- PyStr.int f ;;
      zs <-- ints rest ;;
      Ok (z :: zs)
  end.

Definition comma : ascii := ascii_of_nat 44.

(** [get_work_area_off]: the eighth field of the first line, two integers
    joined by a comma; unpacking anything but two values is a
    [ValueError]. *)
Definition get_work_area_off (out : string) : result (Z * Z) :=
  line <-- PyStr.index (PyStr.split_on PyStr.newline out) 0 ;;
  xy <-- PyStr.index (PyStr.split line) 7 ;;
  zs <-- ints (PyStr.split_on comma xy) ;;
  match zs with
  | [x; y] => Ok (x, y)
  | _ => Raise ValueError
  end.

End Desk.

(** ** Notions used by the further properties *)

Module Notions.
Import Config AutoWin AdjWin Trace.

(** What the decoder prints for the output [d] when nothing is attached
    to it: the report that the descriptor file of that output was empty. *)
Definition empty_report (d : string) : string :=
  "EDID of '/sys/class/drm/" +:+ d +:+ "/edid' was empty".

(** An output whose descriptor is read: it has an [edid] file and what the
    decoder prints for it does not start with the empty report. *)
Definition readable (d : DrmEntry) : bool :=
  match d_edid d with
  | None => false
  | Some out => negb (String.prefix (empty_report (d_name d)) out)
  end.

(** The monitors other than the laptop panel. *)
Definition externals (ms : list Monitor) : list Monitor :=
  List.filter (fun m => negb (built_in m)) ms.

(** The laptop panel and nothing else. *)
Definition panel_alone (ms : list Monitor) : Prop :=
  exists m, ms = [m] /\ built_in m = true.

(** A character the serial pattern takes into its group. *)
Definition serial_char (c : ascii) : bool :=
  negb (is_quote c || PyStr.isspace c).

Fixpoint all_chars (P : ascii -> bool) (s : string) : bool :=
  match s with
  | EmptyString => true
  | String c s' => P c && all_chars P s'
  end.

(** A line that names the manufacturer or the model. *)
Definition field_line (line : string) : bool :=
  PyStr.contains "manufacturer:" (PyStr.lower line)
  || PyStr.contains "model:" (PyStr.lower line).

(** An item of the monitor map that the loop of the classifier passes
    over for the monitors [mons]. *)
Definition passed_over (mons : list Monitor) (nv : string * mon_value) : Prop :=
  fst nv = "built in" \/
  (exists l, snd nv = MList l /\ is_mon_match mons l = false) \/
  (exists bi, snd nv = MBuiltIn bi /\ length mons <> 3).

(** The exit status of the placement tool started for a profile, with the
    configuration, the window listing and the process listing it finds.
    This is the tool's [main]; a name that starts with a dash would not
    reach it, the argument parser takes it for an option. *)
Definition adjwin_exit_of (conf : Conf) (wl_out ps_out : string)
    (profile : string) : Z :=
  AdjWin.exit_status (AdjWin.main profile conf wl_out ps_out).2.

(** The kinds of run of the watcher: it failed before any event; it
    listed the monitors; it found its state in the file; it saved the
    sentinel, with the warning when no set matched; it placed the windows
    and saved the state; or the placement tool failed. *)
Inductive run_kind (w : World) : Run -> Prop :=
| RunFailed (e : exn) :
    run_kind w (mkRun [] (w_state_file w) (Raise e))
| RunListed (mons : list (option Monitor)) :
    run_kind w (mkRun (PrintHeader :: map PrintMon mons) (w_state_file w)
                      (Ok 0%Z))
| RunSame (cur : option string) :
    w_state_file w = Some (state_of cur) ->
    run_kind w (mkRun (warnings cur) (w_state_file w) (Ok 0%Z))
| RunUnknown :
    w_state_file w <> Some UNKNOWN_STATE ->
    run_kind w (mkRun [Warn; WriteState UNKNOWN_STATE] (Some UNKNOWN_STATE)
                      (Ok 0%Z))
| RunSaveOnly :
    w_state_file w <> Some UNKNOWN_STATE ->
    run_kind w (mkRun [WriteState UNKNOWN_STATE] (Some UNKNOWN_STATE)
                      (Ok 0%Z))
| RunPlaced (name : string) :
    name <> UNKNOWN_STATE ->
    w_state_file w <> Some name ->
    w_adjwin_exit w name = 0%Z ->
    run_kind w (mkRun [RunAdjwin name; WriteState name] (Some name) (Ok 0%Z))
| RunPlaceFailed (name : string) :
    name <> UNKNOWN_STATE ->
    w_state_file w <> Some name ->
    w_adjwin_exit w name <> 0%Z ->
    run_kind w (mkRun [RunAdjwin name] (w_state_file w)
                      (Raise (CalledProcessError (w_adjwin_exit w name)))).

(** The first field of a line of the window listing. *)
Definition first_field (line : string) : string :=
  match PyStr.split line with
  | f :: _ => f
  | [] => EmptyString
  end.

Definition nonblank (line : string) : bool :=
  negb (String.eqb (PyStr.strip line) "").

(** The field [i] of a line is the integer [z]. *)
Definition int_field (line : string) (i : nat) (z : Z) : Prop :=
  exists f, PyStr.split line !! i = Some f /\ PyStr.int f = Ok z.

(** The record [pi] is the one of the line: the window id is the first
    field, the next six fields are its numbers, the title is all that
    follows the eighth field, and the shell flag tells whether the command
    of the window's process, as the process table has it, names the
    terminal. *)
Definition describes (ps_out line : string) (pi : ProcInfo) : Prop :=
  PyStr.split line !! 0 = Some (wid pi) /\
  int_field line 1 (desktop pi) /\
  int_field line 2 (pid pi) /\
  int_field line 3 (xpos pi) /\
  int_field line 4 (ypos pi) /\
  int_field line 5 (width pi) /\
  int_field line 6 (height pi) /\
  PyStr.split_max 8 (PyStr.strip line) !! 8 = Some (name pi) /\
  exists table parts cmd,
    _get_procs ps_out = Ok table /\
    table !! pid pi = Some parts /\
    parts !! 10 = Some cmd /\
    shell pi = PyStr.contains "gnome-terminal" cmd.

(** An entry of the process table: between two and eleven fields, the
    second of which is the key as an integer. *)
Definition entry_ok (k : Z) (parts : list string) : Prop :=
  2 <= length parts <= 11 /\
  exists f, parts !! 1 = Some f /\ PyStr.int f = Ok k.

(** A line of the desktop listing that is not the current desktop's: it
    has a second field, and that is no star. *)
Definition unstarred (l : string) : Prop :=
  exists mark, PyStr.split l !! 1 = Some mark /\ mark <> "*".

(** The window id a command of the window manager is for. *)
Definition cmd_wid (c : wm_cmd) : string :=
  match c with
  | MoveResize w _ _ _ _ => w
  | ToDesktop w _ => w
  end.

End Notions.

(** * Properties *)

(** ** Strings *)

Module PyStrFacts.
Import PyStr.

Example split_max_rest : split_max 1 "a b  c  " = ["a"; "b  c  "].
Proof. reflexivity. Qed.

Example split_words : split "  a b  c  " = ["a"; "b"; "c"].
Proof. reflexivity. Qed.

Example split_lines : split_on newline "" = [""].
Proof. reflexivity. Qed.

Example int_examples :
  int "007" = Ok 7%Z /\ int "-12" = Ok (-12)%Z /\
  int "1_0" = Ok 10%Z /\ int "1__0" = Raise ValueError /\
  int "" = Raise ValueError /\ int "0x1f" = Raise ValueError.
Proof. repeat split; reflexivity. Qed.

(** [String.prefix] is being a prefix. *)
Lemma prefix_app (p s : string) :
  String.prefix p s = true <-> exists t, s = p +:+ t.
Proof.
  revert s. induction p as [|a p IH]; intros s; simpl.
  - split; [intros _; exists s; reflexivity | intros _; destruct s; reflexivity].
  - destruct s as [|c s]; simpl.
    + split; [discriminate | intros [t Ht]; discriminate].
    + destruct (ascii_dec a c) as [->|Hne].
      * rewrite IH. split; intros [t Ht]; exists t.
        -- now rewrite Ht.
        -- now inversion Ht.
      * split; [discriminate | intros [t Ht]; inversion Ht; congruence].
Qed.

(** [contains] is being a substring: some text before, some after. *)
Lemma contains_substring (needle hay : string) :
  contains needle hay = true <-> exists a b, hay = a +:+ needle +:+ b.
Proof.
  induction hay as [|c hay IH]; cbn [contains].
  - rewrite orb_false_r, prefix_app. split.
    + intros [t Ht]. exists "", t. exact Ht.
    + intros [a [b Hab]]. destruct a; simpl in Hab.
      * exists b. exact Hab.
      * discriminate.
  - rewrite orb_true_iff, prefix_app, IH. split.
    + intros [[t Ht] | [a [b Hab]]].
      * exists "", t. exact Ht.
      * exists (String c a), b. simpl. now rewrite Hab.
    + intros [a [b Hab]]. destruct a as [|c' a]; simpl in Hab.
      * left. exists b. exact Hab.
      * right. inversion Hab. exists a, b. reflexivity.
Qed.

End PyStrFacts.

(** ** The monitor watcher *)

Module WatcherFacts.
Import Config AutoWin Trace Samples.

(** A [None] among the monitors makes the classifier raise, whatever the
    configuration. *)
Lemma drop_built_in_None (mons : list (option Monitor)) :
  None ∈ mons -> drop_built_in mons = Raise AttributeError.
Proof.
  induction mons as [|m mons IH]; intros Hin.
  - inversion Hin.
  - destruct m as [m|]; [|reflexivity].
    apply elem_of_cons in Hin as [Heq | Hin]; [discriminate|].
    simpl. now rewrite IH.
Qed.

Lemma classifier_raises_on_None (mons : list (option Monitor)) (conf : Conf) :
  None ∈ mons -> get_cur_state_name mons conf = Raise AttributeError.
Proof.
  intros Hin. unfold get_cur_state_name.
  destruct mons as [|m [|m' mons]].
  - inversion Hin.
  - apply list_elem_of_singleton in Hin as <-. reflexivity.
  - cbn [rbind]. now rewrite (drop_built_in_None _ Hin).
Qed.

(** C1: a descriptor scanned to its end without serial and without the
    panel's manufacturer and model yields no record, but the [None] that
    stands for it is appended to the monitor list, and the classifier
    raises on it: the run ends with an exception instead of treating the
    output as absent. *)
Theorem C1_unidentified_descriptor_aborts_classification :
  get_mon_from_edid edid_no_serial panel = Ok None /\
  get_conn_monitors (w_drm (world_of [edid_no_serial] None)) conf0 = Ok [None] /\
  get_cur_state_name [None] conf0 = Raise AttributeError /\
  run_result (main false conf0 (world_of [edid_no_serial] None))
    = Raise AttributeError /\
  exit_status (main false conf0 (world_of [edid_no_serial] None)) = 1%Z.
Proof. repeat split; vm_compute; reflexivity. Qed.

(** C2: a descriptor whose last line is the serial-number line yields no
    record at all; the record is only returned at a later line that is
    none of the three fields. *)
Theorem C2_serial_on_last_line_yields_nothing :
  serial_search "    Serial Number: SN123" = Some "SN123" /\
  get_mon_from_edid edid_serial_last panel = Ok None /\
  get_mon_from_edid edid_serial_then_more panel
    = Ok (Some (mkMonitor "ACME" "X1" "SN123" false)).
Proof. repeat split; vm_compute; reflexivity. Qed.

(** C5: one monitor, flagged built-in: the classifier returns the state
    name of the configured panel, whatever else the configuration holds. *)
Theorem C5_built_in_short_circuit (m : Monitor) (conf : Conf) (bi : BuiltIn) :
  built_in m = true ->
  conf_built_in conf = Ok bi ->
  get_cur_state_name [Some m] conf = Ok (Some (bi_map bi)).
Proof.
  intros Hb Hc. unfold get_cur_state_name. simpl. rewrite Hb, Hc. reflexivity.
Qed.

Lemma C5_built_in_short_circuit_witness :
  as_dict MonPanel ∈ [as_dict MonPanel] /\
  get_cur_state_name [Some MonPanel] conf0 = Ok (Some "laptop").
Proof.
  split.
  - apply list_elem_of_here.
  - apply (C5_built_in_short_circuit MonPanel conf0 panel); reflexivity.
Defined.

(** *** Matching a monitor list against a configured list *)

(** What [is_mon_match] decides: equal lengths, and every monitor's
    identity among the configured ones. *)
Lemma is_mon_match_spec (mons : list Monitor) (mlist : list (gmap string string)) :
  is_mon_match mons mlist = true <->
  length mons = length mlist /\ forall d, d ∈ map as_dict mons -> d ∈ mlist.
Proof.
  unfold is_mon_match.
  destruct (Nat.eqb_spec (length mons) (length mlist)) as [Hlen|Hlen]; simpl.
  - rewrite forallb_forall. split.
    + intros H. split; [exact Hlen|]. intros d Hd.
      apply list_elem_of_In in Hd. apply H in Hd.
      now apply bool_decide_eq_true in Hd.
    + intros [_ H] d Hd. apply bool_decide_eq_true, H.
      now apply list_elem_of_In.
  - split; [discriminate | intros [? _]; contradiction].
Qed.

Lemma is_mon_match_perm (mons mons' : list Monitor)
    (mlist mlist' : list (gmap string string)) :
  mons ≡ₚ mons' -> mlist ≡ₚ mlist' ->
  is_mon_match mons' mlist' = is_mon_match mons mlist.
Proof.
  intros Hm Hl.
  assert (Hiff : is_mon_match mons' mlist' = true <->
                 is_mon_match mons mlist = true).
  { rewrite !is_mon_match_spec.
    rewrite <- (Permutation_length Hm), <- (Permutation_length Hl).
    assert (Hd : map as_dict mons ≡ₚ map as_dict mons')
      by now apply fmap_Permutation.
    split; intros [Hlen H]; (split; [exact Hlen|]); intros d Hd'.
    - rewrite Hl. apply H. now rewrite <- Hd.
    - rewrite <- Hl. apply H. now rewrite Hd. }
  destruct (is_mon_match mons' mlist'), (is_mon_match mons mlist);
    try reflexivity.
  - symmetry. now apply Hiff.
  - now apply Hiff.
Qed.

(** With no identity listed twice on the left, an accepted pair is a pair
    of rearrangements of one list. *)
Lemma is_mon_match_NoDup_perm (mons : list Monitor)
    (mlist : list (gmap string string)) :
  NoDup (map as_dict mons) ->
  is_mon_match mons mlist = true ->
  map as_dict mons ≡ₚ mlist.
Proof.
  intros Hnd [Hlen Hsub]%is_mon_match_spec.
  apply submseteq_length_Permutation.
  - now apply NoDup_submseteq.
  - rewrite length_map. lia.
Qed.

(** C3 does not hold as stated: a current list that names one monitor twice
    is accepted against a configured list of two different monitors, of
    which it covers one only. *)
Lemma C3_duplicate_accepted_as_subset :
  is_mon_match [MonA; MonA] [as_dict MonA; as_dict MonB] = true /\
  as_dict MonB ∈ [as_dict MonA; as_dict MonB] /\
  (as_dict MonB ∉ map as_dict [MonA; MonA]) /\
  ~ (forall d, d ∈ map as_dict [MonA; MonA] <-> d ∈ [as_dict MonA; as_dict MonB]).
Proof.
  assert (Hnot : as_dict MonB ∉ map as_dict [MonA; MonA]).
  { apply (bool_decide_eq_false_1 (as_dict MonB ∈ map as_dict [MonA; MonA])).
    vm_compute. reflexivity. }
  assert (Hin : as_dict MonB ∈ [as_dict MonA; as_dict MonB]).
  { apply list_elem_of_further, list_elem_of_here. }
  repeat split.
  - exact Hin.
  - exact Hnot.
  - intros H. apply Hnot, H, Hin.
Qed.

(** C3, amended: [is_mon_match] returns true exactly when the two lists
    have the same length and the identity of every current monitor occurs
    in the configured list; it does not depend on the order of either
    list, accepts lists of equal length only, and, when neither list names
    an identity twice, accepts exactly the pairs that denote the same set
    of identities. *)
Theorem C3_is_mon_match_set_equality (mons : list Monitor)
    (mlist : list (gmap string string)) :
  (is_mon_match mons mlist = true <->
   length mons = length mlist /\
   forall d, d ∈ map as_dict mons -> d ∈ mlist) /\
  (forall mons' mlist', mons ≡ₚ mons' -> mlist ≡ₚ mlist' ->
     is_mon_match mons' mlist' = is_mon_match mons mlist) /\
  (is_mon_match mons mlist = true -> length mons = length mlist) /\
  (NoDup (map as_dict mons) -> NoDup mlist ->
     (is_mon_match mons mlist = true <->
      (forall d, d ∈ map as_dict mons <-> d ∈ mlist))).
Proof.
  split; [apply is_mon_match_spec|].
  split; [|split].
  - intros mons' mlist'. apply is_mon_match_perm.
  - now intros [Hlen _]%is_mon_match_spec.
  - intros Hm Hl. split.
    + intros H d. now rewrite (is_mon_match_NoDup_perm mons mlist Hm H).
    + intros Heq. apply is_mon_match_spec. split.
      * rewrite <- (length_map as_dict mons).
        apply Permutation_length. now apply NoDup_Permutation.
      * intros d. apply Heq.
Qed.

Lemma C3_is_mon_match_set_equality_witness :
  (is_mon_match [MonA; MonB] [as_dict MonB; as_dict MonA] = true <->
   (forall d, d ∈ map as_dict [MonA; MonB]
              <-> d ∈ [as_dict MonB; as_dict MonA])) /\
  (is_mon_match [MonA; MonA] [as_dict MonA; as_dict MonB] = true <->
   length [MonA; MonA] = length [as_dict MonA; as_dict MonB] /\
   forall d, d ∈ map as_dict [MonA; MonA]
             -> d ∈ [as_dict MonA; as_dict MonB]).
Proof.
  split.
  - destruct (C3_is_mon_match_set_equality [MonA; MonB]
                [as_dict MonB; as_dict MonA]) as (_ & _ & _ & Hset).
    apply Hset.
    + apply (bool_decide_eq_true_1 (NoDup (map as_dict [MonA; MonB]))).
      vm_compute. reflexivity.
    + apply (bool_decide_eq_true_1 (NoDup [as_dict MonB; as_dict MonA])).
      vm_compute. reflexivity.
  - exact (proj1 (C3_is_mon_match_set_equality [MonA; MonA]
                    [as_dict MonA; as_dict MonB])).
Defined.

(** *** The top-level policy *)

(** [main] once the monitors are read and classified. *)
Lemma main_classified (conf : Conf) (w : World)
    (mons : list (option Monitor)) (cur : option string) :
  get_conn_monitors (w_drm w) conf = Ok mons ->
  get_cur_state_name mons conf = Ok cur ->
  main false conf w =
    if bool_decide (w_state_file w = Some (state_of cur))
    then mkRun (warnings cur) (w_state_file w) (Ok 0%Z)
    else adjust_windows (state_of cur) w (warnings cur).
Proof.
  intros Hm Hc. unfold main, get_state. rewrite Hm, Hc.
  destruct cur; reflexivity.
Qed.

Lemma warnings_quiet (cur : option string) :
  List.filter is_placement (warnings cur) = [] /\
  List.filter is_write (warnings cur) = [].
Proof. destruct cur; split; reflexivity. Qed.

Lemma noop_unchanged (w : World) (cur : option string) :
  noop w (mkRun (warnings cur) (w_state_file w) (Ok 0%Z)).
Proof.
  unfold noop, placements, writes. simpl.
  destruct (warnings_quiet cur) as [-> ->]. repeat split.
Qed.

(** A run of [adjust_windows] that ends normally leaves the state it was
    given in the state file. *)
Lemma adjust_windows_ok (cur_state : string) (w : World) (evs : list event) :
  run_result (adjust_windows cur_state w evs) = Ok 0%Z ->
  run_state_file (adjust_windows cur_state w evs) = Some cur_state.
Proof.
  unfold adjust_windows.
  destruct (negb (String.eqb cur_state UNKNOWN_STATE)); [|reflexivity].
  destruct (w_adjwin_exit w cur_state =? 0)%Z; [reflexivity | discriminate].
Qed.

(** The sentinel state is saved without a call of the placement tool. *)
Lemma adjust_windows_unknown (w : World) (evs : list event) :
  adjust_windows UNKNOWN_STATE w evs =
    mkRun (evs ++ [WriteState UNKNOWN_STATE]) (Some UNKNOWN_STATE) (Ok 0%Z).
Proof. reflexivity. Qed.

(** After a run that ended normally the state file holds the state the
    run settled on. *)
Lemma main_ok_state (conf : Conf) (w : World)
    (mons : list (option Monitor)) (cur : option string) :
  get_conn_monitors (w_drm w) conf = Ok mons ->
  get_cur_state_name mons conf = Ok cur ->
  run_result (main false conf w) = Ok 0%Z ->
  run_state_file (main false conf w) = Some (state_of cur).
Proof.
  intros Hm Hc. rewrite (main_classified conf w mons cur Hm Hc).
  case_bool_decide as Hs.
  - intros _. exact Hs.
  - apply adjust_windows_ok.
Qed.

(** A run right after one that ended normally, with the same monitors,
    finds its own state in the file. *)
Lemma second_run_noop (conf : Conf) (w : World) :
  run_result (main false conf w) = Ok 0%Z ->
  noop (after w (main false conf w))
       (main false conf (after w (main false conf w))).
Proof.
  intros Hok.
  destruct (get_conn_monitors (w_drm w) conf) as [mons|e] eqn:Hm;
    [|unfold main in Hok; rewrite Hm in Hok; discriminate].
  destruct (get_cur_state_name mons conf) as [cur|e] eqn:Hc;
    [|unfold main in Hok; rewrite Hm, Hc in Hok; discriminate].
  pose proof (main_ok_state conf w mons cur Hm Hc Hok) as Hfile.
  set (w' := after w (main false conf w)).
  assert (Hm' : get_conn_monitors (w_drm w') conf = Ok mons) by exact Hm.
  rewrite (main_classified conf w' mons cur Hm' Hc).
  rewrite bool_decide_eq_true_2 by exact Hfile.
  apply noop_unchanged.
Qed.

(** C7: when the state file holds the state the classifier computes, the
    run calls no placement, writes no state and ends with status 0; hence
    a second run, right after a run that ended normally and with the same
    monitors, changes nothing. *)
Theorem C7_same_state_is_noop (conf : Conf) (w : World) :
  (forall mons cur,
     get_conn_monitors (w_drm w) conf = Ok mons ->
     get_cur_state_name mons conf = Ok cur ->
     get_state w = Some (state_of cur) ->
     noop w (main false conf w)) /\
  (run_result (main false conf w) = Ok 0%Z ->
   noop (after w (main false conf w))
        (main false conf (after w (main false conf w)))).
Proof.
  split.
  - intros mons cur Hm Hc Hs.
    rewrite (main_classified conf w mons cur Hm Hc).
    unfold get_state in Hs. rewrite bool_decide_eq_true_2 by exact Hs.
    apply noop_unchanged.
  - apply second_run_noop.
Qed.

Lemma C7_same_state_is_noop_witness :
  noop (after (world_of [edid_serial_then_more] None)
              (main false conf0 (world_of [edid_serial_then_more] None)))
       (main false conf0
          (after (world_of [edid_serial_then_more] None)
                 (main false conf0 (world_of [edid_serial_then_more] None)))).
Proof.
  apply (C7_same_state_is_noop conf0 (world_of [edid_serial_then_more] None)).
  vm_compute. reflexivity.
Defined.

(** The loop over the configured sets finds nothing when no set matches. *)
Lemma match_loop_none (mons : list Monitor) (items : list (string * mon_value)) :
  Forall (fun nv => fst nv = "built in" \/
                    exists l, snd nv = MList l /\ is_mon_match mons l = false)
         items ->
  match_loop mons items = Ok None.
Proof.
  induction 1 as [|[n v] items Hnv _ IH]; [reflexivity|].
  simpl in *. destruct Hnv as [-> | [l [-> Hl]]].
  - exact IH.
  - destruct (String.eqb n "built in"); [exact IH|]. now rewrite Hl.
Qed.

Lemma drop_built_in_Some (ms : list Monitor) :
  drop_built_in (map Some ms)
    = Ok (List.filter (fun m => negb (built_in m)) ms).
Proof.
  induction ms as [|m ms IH]; [reflexivity|].
  simpl. rewrite IH. simpl. now destruct (built_in m).
Qed.

(** The classifier on identified monitors that are not the panel alone and
    match no configured set. *)
Lemma classifier_none (conf : Conf) (ms : list Monitor)
    (items : list (string * mon_value)) :
  conf_mon_items conf = Ok items ->
  (forall m, ms = [m] -> built_in m = false) ->
  Forall (fun nv => fst nv = "built in" \/
                    exists l, snd nv = MList l /\
                      is_mon_match (List.filter (fun m => negb (built_in m)) ms) l
                        = false)
         items ->
  get_cur_state_name (map Some ms) conf = Ok None.
Proof.
  intros Hitems Hsingle Hall. unfold get_cur_state_name.
  assert (Hs : match map Some ms with
               | [m] => attr_built_in m
               | _ => Ok false
               end = Ok false).
  { destruct ms as [|m [|m' ms']]; try reflexivity.
    simpl. now rewrite (Hsingle m eq_refl). }
  rewrite Hs. cbn [rbind].
  rewrite drop_built_in_Some, Hitems. cbn [rbind].
  now apply match_loop_none.
Qed.

(** C8: monitors that match no configured set: the classifier returns
    [None]; the run logs a warning, calls no placement, leaves the sentinel
    in the state file and ends with status 0; the next run with the same
    monitors calls no placement either. *)
Theorem C8_unknown_state (conf : Conf) (w : World) (ms : list Monitor)
    (items : list (string * mon_value)) :
  get_conn_monitors (w_drm w) conf = Ok (map Some ms) ->
  conf_mon_items conf = Ok items ->
  (forall m, ms = [m] -> built_in m = false) ->
  Forall (fun nv => fst nv = "built in" \/
                    exists l, snd nv = MList l /\
                      is_mon_match (List.filter (fun m => negb (built_in m)) ms) l
                        = false)
         items ->
  get_cur_state_name (map Some ms) conf = Ok None /\
  (exists evs, run_events (main false conf w) = Warn :: evs) /\
  placements (main false conf w) = [] /\
  run_state_file (main false conf w) = Some UNKNOWN_STATE /\
  run_result (main false conf w) = Ok 0%Z /\
  exit_status (main false conf w) = 0%Z /\
  placements (main false conf (after w (main false conf w))) = [] /\
  run_result (main false conf (after w (main false conf w))) = Ok 0%Z.
Proof.
  intros Hm Hitems Hsingle Hall.
  pose proof (classifier_none conf ms items Hitems Hsingle Hall) as Hc.
  split; [exact Hc|].
  assert (Hrun : run_state_file (main false conf w) = Some UNKNOWN_STATE /\
                 run_result (main false conf w) = Ok 0%Z /\
                 placements (main false conf w) = [] /\
                 exists evs, run_events (main false conf w) = Warn :: evs).
  { rewrite (main_classified conf w _ None Hm Hc).
    case_bool_decide as Hs.
    - repeat split; [exact Hs | now exists []].
    - simpl state_of. rewrite adjust_windows_unknown.
      repeat split. now eexists. }
  destruct Hrun as (Hfile & Hres & Hpl & Hev).
  assert (H2 : noop (after w (main false conf w))
                    (main false conf (after w (main false conf w))))
    by (apply second_run_noop; exact Hres).
  unfold exit_status. rewrite Hres.
  destruct H2 as (Hp2 & _ & _ & Hr2).
  repeat split; assumption.
Qed.

Lemma C8_unknown_state_witness :
  get_cur_state_name (map Some [MonC]) conf0 = Ok None /\
  run_events (main false conf0 (world_of [edid_serial_then_more] None))
    = [Warn; WriteState "unknown"] /\
  run_state_file (main false conf0 (world_of [edid_serial_then_more] None))
    = Some "unknown".
Proof.
  destruct (C8_unknown_state conf0 (world_of [edid_serial_then_more] None)
              [MonC]
              [ ("built in", MBuiltIn panel);
                ("work", MList [as_dict MonA; as_dict MonB]);
                ("home", MList [as_dict MonPanel]) ])
    as (Hcur & _ & _ & Hfile & _).
  - vm_compute. reflexivity.
  - reflexivity.
  - intros m [= <-]. reflexivity.
  - constructor; [left; reflexivity|].
    constructor;
      [right; eexists; split; [reflexivity | vm_compute; reflexivity]|].
    constructor;
      [right; eexists; split; [reflexivity | vm_compute; reflexivity]|].
    constructor.
  - split; [exact Hcur|]. split; [|exact Hfile].
    vm_compute. reflexivity.
Defined.

End WatcherFacts.

(** ** The window-placement tool *)

Module PlacementFacts.
Import Config AdjWin PyStr Samples WinSamples.

Lemma dict_get_None {V} (k : string) (d : list (string * V)) :
  dict_get k d = None <-> k ∉ dict_keys d.
Proof.
  unfold dict_keys. induction d as [|[k' v] d IH]; simpl.
  - split; [intros _ H; inversion H | reflexivity].
  - rewrite not_elem_of_cons. destruct (String.eqb_spec k k') as [->|Hne].
    + split; [discriminate | intros [H _]; contradiction].
    + rewrite IH. tauto.
Qed.

(** What the inner loop finds: the first window, in the order of the list,
    whose title contains the rule's name. *)
Lemma find_window_Some (i : nat) (win : Rule) (procs : list ProcInfo)
    (j : nat) (pi : ProcInfo) :
  find_window i win procs = Some (j, pi) <->
  exists before after,
    procs = before ++ pi :: after /\ j = i + length before /\
    Forall (fun q => contains (r_name win) (name q) = false) before /\
    contains (r_name win) (name pi) = true.
Proof.
  revert i. induction procs as [|q procs IH]; intros i; simpl.
  - split; [discriminate|]. intros ([|? ?] & after & H & _); discriminate.
  - destruct (contains (r_name win) (name q)) eqn:Hq.
    + split.
      * intros [= <- <-]. exists [], procs. simpl.
        repeat split; [lia | constructor | exact Hq].
      * intros (before & after & Hp & Hj & Hbefore & Hpi).
        destruct before as [|q' before]; simpl in *.
        -- injection Hp as -> ->. f_equal. f_equal. lia.
        -- injection Hp as -> ->. inversion Hbefore; subst. congruence.
    + rewrite IH. split.
      * intros (before & after & -> & -> & Hbefore & Hpi).
        exists (q :: before), after. simpl.
        repeat split; [lia | now constructor | exact Hpi].
      * intros (before & after & Hp & Hj & Hbefore & Hpi).
        destruct before as [|q' before]; simpl in *.
        -- injection Hp as -> ->. congruence.
        -- injection Hp as -> ->. inversion Hbefore; subst.
           exists before, after. repeat split; [lia | assumption..].
Qed.

Lemma find_window_None (i : nat) (win : Rule) (procs : list ProcInfo) :
  find_window i win procs = None <->
  Forall (fun q => contains (r_name win) (name q) = false) procs.
Proof.
  revert i. induction procs as [|q procs IH]; intros i; simpl.
  - split; [constructor | reflexivity].
  - destruct (contains (r_name win) (name q)) eqn:Hq.
    + split; [discriminate|]. intros H. inversion H; subst. congruence.
    + rewrite IH. split; [now constructor | now inversion 1].
Qed.

(** One turn of the outer loop, when the rule finds a window. *)
Lemma move_loop_found (win : Rule) (rest : list Rule)
    (before : list ProcInfo) (pi : ProcInfo) (after : list ProcInfo) :
  Forall (fun q => contains (r_name win) (name q) = false) before ->
  contains (r_name win) (name pi) = true ->
  move_loop (win :: rest) (before ++ pi :: after) =
    ((pi, win) :: (move_loop rest (before ++ after)).1,
     (move_loop rest (before ++ after)).2).
Proof.
  intros Hbefore Hpi. simpl.
  assert (Hf : find_window 0 win (before ++ pi :: after)
               = Some (length before, pi)).
  { apply find_window_Some. exists before, after. auto. }
  rewrite Hf, delete_middle.
  now destruct (move_loop rest (before ++ after)).
Qed.

Lemma move_loop_skipped (win : Rule) (rest : list Rule) (procs : list ProcInfo) :
  Forall (fun q => contains (r_name win) (name q) = false) procs ->
  move_loop (win :: rest) procs = move_loop rest procs.
Proof.
  intros H. simpl. now rewrite (proj2 (find_window_None 0 win procs) H).
Qed.

(** C4: the matcher is ordered, greedy and first-fit.  A rule none of the
    remaining windows satisfies is skipped; otherwise the first remaining
    window whose title contains the rule's name (as a substring, letter
    case included) is taken out of the list, and its placement, the move
    and resize to the rule's offsets and size and then the move to the
    rule's desktop, both for the window's id, comes before the commands
    of the later rules; a profile never makes the matcher raise.  On the
    rules Firefox, fire and the windows Mozilla Firefox and
    firefox - private each rule takes the window of its own line, and the
    four commands are those of the two rules in order. *)
Theorem C4_ordered_first_fit (win : Rule) (rest : list Rule)
    (procs : list ProcInfo) :
  (Forall (fun q => contains (r_name win) (name q) = false) procs ->
   move_loop (win :: rest) procs = move_loop rest procs) /\
  (forall before pi after,
     procs = before ++ pi :: after ->
     Forall (fun q => contains (r_name win) (name q) = false) before ->
     contains (r_name win) (name pi) = true ->
     move_loop (win :: rest) procs =
       ((pi, win) :: (move_loop rest (before ++ after)).1,
        (move_loop rest (before ++ after)).2) /\
     commands (move_loop (win :: rest) procs).1 =
       MoveResize (wid pi) (r_xoff win) (r_yoff win)
                  (r_width win) (r_height win)
         :: ToDesktop (wid pi) (r_desk win)
         :: commands (move_loop rest (before ++ after)).1) /\
  (forall q, contains (r_name win) (name q) = true <->
             exists a b, name q = a +:+ r_name win +:+ b) /\
  (forall conf profile,
     dict_get profile conf = Some (CProfile (win :: rest)) ->
     mv_result (move_windows procs conf profile) = Ok tt /\
     mv_calls (move_windows procs conf profile)
       = (move_loop (win :: rest) procs).1 /\
     mv_procs (move_windows procs conf profile)
       = (move_loop (win :: rest) procs).2) /\
  contains "fire" "Mozilla Firefox" = false /\
  move_loop [rule1; rule2] [win1; win2]
    = ([(win1, rule1); (win2, rule2)], []) /\
  commands (move_loop [rule1; rule2] [win1; win2]).1
    = [ MoveResize "0x03a00003" 0 0 1280 1024; ToDesktop "0x03a00003" 0;
        MoveResize "0x03a00007" 1280 0 1280 1024; ToDesktop "0x03a00007" 1 ].
Proof.
  split; [apply move_loop_skipped|].
  split.
  { intros before pi after -> Hbefore Hpi.
    rewrite (move_loop_found win rest before pi after Hbefore Hpi).
    split; reflexivity. }
  split; [intros q; apply PyStrFacts.contains_substring|].
  split.
  { intros conf profile Hget. unfold move_windows, getitem. rewrite Hget.
    destruct (move_loop (win :: rest) procs) as [calls procs'].
    repeat split. }
  split; [|split]; vm_compute; reflexivity.
Qed.

Lemma C4_ordered_first_fit_witness :
  move_loop [rule2] [win1; win2] = ([(win2, rule2)], [win1]) /\
  commands (move_loop [rule2] [win1; win2]).1
    = [ MoveResize "0x03a00007" 1280 0 1280 1024; ToDesktop "0x03a00007" 1 ].
Proof.
  pose proof (C4_ordered_first_fit rule2 [] [win1; win2]) as (_ & Hfound & _).
  destruct (Hfound [win1] win2 [] eq_refl) as [H Hcmd].
  - repeat constructor.
  - vm_compute. reflexivity.
  - split; [exact H | exact Hcmd].
Defined.

(** *** The assignment is a partial matching *)

(** The rules that fired are a subsequence of the profile, and the windows
    they took, together with the windows left, are the inventory. *)
Lemma move_loop_assignment (prof : list Rule) (procs : list ProcInfo) :
  map snd (move_loop prof procs).1 `sublist_of` prof /\
  map fst (move_loop prof procs).1 ++ (move_loop prof procs).2 ≡ₚ procs.
Proof.
  revert procs. induction prof as [|win rest IH]; intros procs.
  - split; [constructor | reflexivity].
  - destruct (find_window 0 win procs) as [[j pi]|] eqn:Hf.
    + apply find_window_Some in Hf
        as (before & after & -> & _ & Hbefore & Hpi).
      rewrite (move_loop_found win rest before pi after Hbefore Hpi).
      destruct (IH (before ++ after)) as [Hsub Hperm]. simpl. split.
      * now constructor.
      * rewrite Hperm. apply Permutation_middle.
    + apply find_window_None in Hf. rewrite (move_loop_skipped _ _ _ Hf).
      destruct (IH procs) as [Hsub Hperm]. split.
      * now constructor.
      * exact Hperm.
Qed.

Lemma move_windows_calls (procs : list ProcInfo) (conf : Conf)
    (profile : string) :
  mv_calls (move_windows procs conf profile)
    = (move_loop (rules_of conf profile) procs).1 /\
  mv_procs (move_windows procs conf profile)
    = (move_loop (rules_of conf profile) procs).2.
Proof.
  unfold move_windows, rules_of, getitem.
  destruct (dict_get profile conf) as [[prof|mm]|]; simpl.
  - now destruct (move_loop prof procs).
  - destruct mm, procs; split; reflexivity.
  - split; reflexivity.
Qed.

(** C6: the assignment of [move_windows] is an injective partial matching:
    the rules that claimed a window are a subsequence of the profile (a
    rule claims at most one window), and the claimed windows together with
    the windows left over are a rearrangement of the inventory (a window is
    claimed at most once); with pairwise different window ids, no id is
    placed twice. *)
Theorem C6_injective_partial_matching (procs : list ProcInfo) (conf : Conf)
    (profile : string) :
  map snd (mv_calls (move_windows procs conf profile))
    `sublist_of` rules_of conf profile /\
  map fst (mv_calls (move_windows procs conf profile))
    ++ mv_procs (move_windows procs conf profile) ≡ₚ procs /\
  (NoDup (map wid procs) ->
   NoDup (map wid (map fst (mv_calls (move_windows procs conf profile))))).
Proof.
  destruct (move_windows_calls procs conf profile) as [-> ->].
  destruct (move_loop_assignment (rules_of conf profile) procs) as [Hsub Hperm].
  repeat split; [exact Hsub | exact Hperm |].
  intros Hnd.
  assert (Hw : map wid (map fst (move_loop (rules_of conf profile) procs).1)
               ++ map wid (move_loop (rules_of conf profile) procs).2
               ≡ₚ map wid procs).
  { rewrite <- map_app. now apply fmap_Permutation. }
  rewrite <- Hw in Hnd. now apply NoDup_app in Hnd as [H _].
Qed.

Lemma C6_injective_partial_matching_witness :
  NoDup (map wid (map fst
    (mv_calls (move_windows [win1; win2] conf0 "work")))).
Proof.
  apply (C6_injective_partial_matching [win1; win2] conf0 "work").
  apply (bool_decide_eq_true_1 (NoDup (map wid [win1; win2]))).
  vm_compute. reflexivity.
Defined.

(** *** The profile check of [main] *)

(** C9: when the profile name is no key of the configuration, the tool
    sends no command to the window manager and ends with an exception,
    hence a non-zero status; the exception is the error that lists the
    known profiles whenever the window inventory itself could be built. *)
Theorem C9_unknown_profile_is_fatal (profile : string) (conf : Conf)
    (wl_out ps_out : string) :
  profile ∉ dict_keys conf ->
  (main profile conf wl_out ps_out).1 = [] /\
  (exists e, (main profile conf wl_out ps_out).2 = Raise e) /\
  exit_status (main profile conf wl_out ps_out).2 <> 0%Z /\
  (forall procs cache,
     get_proc_info wl_out ps_out ∅ = Ok (procs, cache) ->
     (main profile conf wl_out ps_out).2
       = Raise (RuntimeError (dict_keys conf))).
Proof.
  intros Hkey%dict_get_None. unfold main. rewrite Hkey.
  destruct (get_proc_info wl_out ps_out ∅) as [[procs cache]|e]; simpl.
  - split; [reflexivity|]. split; [now eexists|].
    split; [discriminate | reflexivity].
  - split; [reflexivity|]. split; [now eexists|].
    split; [discriminate | discriminate].
Qed.

Lemma C9_unknown_profile_is_fatal_witness :
  (main "office" conf0 wl0 ps0).1 = [] /\
  (main "office" conf0 wl0 ps0).2
    = Raise (RuntimeError ["work"; "laptop"; "_mon_map_"]).
Proof.
  assert (Hkey : "office" ∉ dict_keys conf0).
  { apply (bool_decide_eq_true_1 ("office" ∉ dict_keys conf0)).
    vm_compute. reflexivity. }
  destruct (C9_unknown_profile_is_fatal "office" conf0 wl0 ps0 Hkey)
    as (Hcmds & _ & _ & Herr).
  split; [exact Hcmds|].
  destruct (get_proc_info wl0 ps0 ∅) as [[procs cache]|e] eqn:Hinv.
  - exact (Herr procs cache eq_refl).
  - vm_compute in Hinv. discriminate.
Defined.

End PlacementFacts.

(** ** Fields of a line *)

Module FieldFacts.
Import PyStr.

Lemma words_go_Some_length (w s : string) :
  1 <= length (words_go (Some w) s).
Proof.
  revert w. induction s as [|c s IH]; intros w; simpl.
  - lia.
  - destruct (isspace c); simpl; [lia | apply IH].
Qed.

(** Cutting at most [k] words off gives the first [k] words and, if
    anything is left, one more item. *)
Lemma split_go_length (k : nat) (cur : option string) (s : string) :
  length (split_go k cur s) =
    Nat.min (k + match cur with Some _ => 2 | None => 1 end)
            (length (words_go cur s)).
Proof.
  revert k cur. induction s as [|c s IH]; intros k cur; simpl.
  - destruct cur; simpl; lia.
  - destruct (isspace c), cur as [w|]; simpl.
    + rewrite IH. lia.
    + apply IH.
    + apply IH.
    + destruct k as [|k].
      * pose proof (words_go_Some_length (String c "") s).
        cbn [length Nat.add]. lia.
      * rewrite IH. f_equal. lia.
Qed.

Lemma split_go_lookup (k : nat) (cur : option string) (s : string) (i : nat) :
  i < k + match cur with Some _ => 1 | None => 0 end ->
  split_go k cur s !! i = words_go cur s !! i.
Proof.
  revert k cur i. induction s as [|c s IH]; intros k cur i Hi; simpl.
  - reflexivity.
  - destruct (isspace c), cur as [w|]; simpl.
    + destruct i as [|i]; [reflexivity|]. simpl. apply IH. lia.
    + apply IH. exact Hi.
    + apply IH. exact Hi.
    + destruct k as [|k]; [lia|]. apply IH. lia.
Qed.

Lemma words_go_rstrip (cur : option string) (s : string) :
  words_go cur (rstrip s) = words_go cur s.
Proof.
  revert cur. induction s as [|c s IH]; intros cur; [reflexivity|].
  cbn [rstrip]. destruct (rstrip s) as [|c' r] eqn:Hr.
  - destruct (isspace c) eqn:Hc; cbn [words_go]; rewrite Hc.
    + destruct cur; rewrite <- IH; reflexivity.
    + destruct cur; rewrite <- IH; reflexivity.
  - cbn [words_go]. destruct (isspace c), cur; rewrite <- ?IH; reflexivity.
Qed.

Lemma words_go_lstrip (s : string) :
  words_go None (lstrip s) = words_go None s.
Proof.
  induction s as [|c s IH]; [reflexivity|].
  cbn [lstrip]. destruct (isspace c) eqn:Hc.
  - rewrite IH. cbn [words_go]. now rewrite Hc.
  - reflexivity.
Qed.

(** Stripping a line leaves its fields as they are. *)
Lemma split_strip (s : string) : split (strip s) = split s.
Proof. unfold split, strip. now rewrite words_go_rstrip, words_go_lstrip. Qed.

Lemma fields_split_max (k : nat) (s : string) :
  length (split_max k s) = Nat.min (S k) (length (split s)).
Proof. unfold split_max, split. rewrite split_go_length. f_equal. lia. Qed.

Lemma split_max_lookup (k : nat) (s : string) (i : nat) :
  i < k -> split_max k s !! i = split s !! i.
Proof. intros Hi. apply split_go_lookup. lia. Qed.

Lemma index_Ok {A} (l : list A) (i : nat) (x : A) :
  index l i = Ok x <-> l !! i = Some x.
Proof.
  unfold index. destruct (l !! i); split; congruence.
Qed.

End FieldFacts.

(** ** The window inventory *)

Module InventoryFacts.
Import Config AdjWin PyStr FieldFacts Samples WinSamples.

Lemma lstrip_head (s : string) : head_nonspace (lstrip s).
Proof.
  induction s as [|c s IH]; simpl; [exact I|].
  destruct (isspace c) eqn:Hc; [exact IH | exact Hc].
Qed.

Lemma rstrip_head (t : string) : head_nonspace t -> head_nonspace (rstrip t).
Proof.
  destruct t as [|c t]; simpl; [trivial|]. intros Hc.
  destruct (rstrip t); rewrite ?Hc; exact Hc.
Qed.

Lemma lstrip_fixed (t : string) : head_nonspace t -> lstrip t = t.
Proof. destruct t as [|c t]; simpl; [trivial|]. now intros ->. Qed.

Lemma rstrip_idem (s : string) : rstrip (rstrip s) = rstrip s.
Proof.
  induction s as [|c s IH]; [reflexivity|].
  cbn [rstrip]. destruct (rstrip s) as [|c' r] eqn:Hr.
  - destruct (isspace c) eqn:Hc; [reflexivity|]. simpl. now rewrite Hc.
  - cbn [rstrip]. cbn [rstrip] in IH. now rewrite IH.
Qed.

Lemma strip_idem (s : string) : strip (strip s) = strip s.
Proof.
  unfold strip.
  rewrite (lstrip_fixed (rstrip (lstrip s))).
  - apply rstrip_idem.
  - apply rstrip_head, lstrip_head.
Qed.

Lemma rbind_Ok {A B} (r : result A) (k : A -> result B) (b : B) :
  rbind r k = Ok b -> exists a, r = Ok a /\ k a = Ok b.
Proof. destruct r as [a|e]; simpl; [eauto | discriminate]. Qed.

Lemma cbind_Ok {A B} (m : Cached A) (k : A -> Cached B)
    (c c2 : gmap Z (list string)) (b : B) :
  cbind m k c = Ok (b, c2) ->
  exists a c1, m c = Ok (a, c1) /\ k a c1 = Ok (b, c2).
Proof.
  unfold cbind. destruct (m c) as [[a c1]|e]; [eauto | discriminate].
Qed.

Lemma clift_Ok {A} (r : result A) (c c1 : gmap Z (list string)) (a : A) :
  clift r c = Ok (a, c1) -> r = Ok a /\ c1 = c.
Proof. unfold clift. destruct r; [now intros [= -> ->] | discriminate]. Qed.

(** *** The process table *)

(** The table [_get_procs] builds: every line is acceptable, and an entry
    is either carried over or the fields of a line of the listing. *)
Lemma procs_loop_Ok (lines : list string) (ret table : gmap Z (list string)) :
  procs_loop lines ret = Ok table ->
  Forall process_line_ok lines /\
  forall k parts, table !! k = Some parts ->
    ret !! k = Some parts \/
    exists l, l ∈ lines /\ parts = split_max 10 (strip l).
Proof.
  revert ret. induction lines as [|l lines IH]; intros ret; simpl.
  - intros [= ->]. split; [constructor | auto].
  - destruct (startswith "USER" (strip l) || String.eqb (strip l) "") eqn:Hskip.
    + intros H. destruct (IH ret H) as [Hall Hlk]. split.
      * constructor; [|exact Hall]. unfold process_line_ok.
        apply orb_true_iff in Hskip as [Hu|He]; [now left|].
        right; left. now apply String.eqb_eq.
      * intros k parts Hk. destruct (Hlk k parts Hk) as [?|(l' & Hl' & ?)];
          [now left | right; exists l'; split; [now right | assumption]].
    + rewrite strip_idem.
      intros (f & Hf & (k0 & Hint & H)%rbind_Ok)%rbind_Ok.
      apply index_Ok in Hf.
      destruct (IH _ H) as [Hall Hlk]. split.
      * constructor; [|exact Hall]. right; right.
        assert (Hf' : split l !! 1 = Some f).
        { rewrite <- (split_strip l), <- (split_max_lookup 10) by lia.
          exact Hf. }
        split; [|now exists f, k0].
        unfold fields. apply lookup_lt_Some in Hf'. lia.
      * intros k parts Hk. destruct (Hlk k parts Hk) as [Hins|(l' & Hl' & ?)].
        -- destruct (decide (k0 = k)) as [->|Hne].
           ++ rewrite lookup_insert_eq in Hins. injection Hins as <-.
              right. exists l. split; [now left | reflexivity].
           ++ rewrite lookup_insert_ne in Hins by exact Hne. now left.
        -- right. exists l'. split; [now right | assumption].
Qed.

Lemma is_shell_Ok (ps_out : string) (pid : Z) (cache cache' : gmap Z (list string))
    (b : bool) :
  cache_ok ps_out cache ->
  is_shell ps_out pid cache = Ok (b, cache') ->
  _get_procs ps_out = Ok cache' /\
  exists parts, cache' !! pid = Some parts /\ 11 <= length parts.
Proof.
  intros Hc. unfold is_shell.
  intros (c1 & Hc1 & H)%rbind_Ok.
  assert (Ht : _get_procs ps_out = Ok c1).
  { case_bool_decide as He; [exact Hc1|].
    injection Hc1 as <-. destruct Hc as [?|?]; [contradiction | assumption]. }
  destruct (c1 !! pid) as [parts|] eqn:Hlk; [|discriminate].
  apply rbind_Ok in H as (cmd & Hcmd%index_Ok & [= <- <-]).
  split; [exact Ht|]. exists parts. split; [exact Hlk|].
  apply lookup_lt_Some in Hcmd. lia.
Qed.

(** A record was built for a stripped line. *)
Lemma parse_input_Ok (ps_out line : string) (cache cache' : gmap Z (list string))
    (pi : ProcInfo) :
  cache_ok ps_out cache ->
  _parse_input ps_out line cache = Ok (pi, cache') ->
  _get_procs ps_out = Ok cache' /\
  9 <= fields line /\
  exists f parts,
    split line !! 2 = Some f /\ int f = Ok (pid pi) /\
    cache' !! pid pi = Some parts /\ 11 <= length parts.
Proof.
  intros Hc. unfold _parse_input.
  intros (w & c1 & [_ ->]%clift_Ok & H)%cbind_Ok.
  apply cbind_Ok in H as (d & c1 & [_ ->]%clift_Ok & H).
  apply cbind_Ok in H as (p & c1 & [Hp ->]%clift_Ok & H).
  apply cbind_Ok in H as (x & c1 & [_ ->]%clift_Ok & H).
  apply cbind_Ok in H as (y & c1 & [_ ->]%clift_Ok & H).
  apply cbind_Ok in H as (wd & c1 & [_ ->]%clift_Ok & H).
  apply cbind_Ok in H as (h & c1 & [_ ->]%clift_Ok & H).
  apply cbind_Ok in H as (n & c1 & [Hn ->]%clift_Ok & H).
  apply cbind_Ok in H as (sh & c1 & Hsh & H).
  injection H as <- <-. simpl.
  destruct (is_shell_Ok ps_out p cache c1 sh Hc Hsh) as [Ht (parts & Hlk & Hlen)].
  split; [exact Ht|].
  apply index_Ok, lookup_lt_Some in Hn. rewrite fields_split_max in Hn.
  split; [unfold fields; lia|].
  apply rbind_Ok in Hp as (f & Hf%index_Ok & Hint).
  rewrite split_max_lookup in Hf by lia.
  now exists f, parts.
Qed.

(** An entry of the table stands for a process line of eleven fields or
    more as soon as it has eleven items. *)
Lemma table_entry_line (ps_out : string) (table : gmap Z (list string))
    (k : Z) (parts : list string) :
  _get_procs ps_out = Ok table ->
  table !! k = Some parts ->
  11 <= length parts ->
  Forall process_line_ok (split_on newline ps_out) /\
  exists l, l ∈ split_on newline ps_out /\
            parts = split_max 10 (strip l) /\ 11 <= fields l.
Proof.
  intros Ht Hk Hlen. destruct (procs_loop_Ok _ _ _ Ht) as [Hall Hlk].
  split; [exact Hall|].
  destruct (Hlk k parts Hk) as [He|(l & Hl & ->)].
  - rewrite lookup_empty in He. discriminate.
  - exists l. repeat split; [exact Hl|].
    rewrite fields_split_max, split_strip in Hlen. unfold fields. lia.
Qed.

Lemma info_loop_Ok (ps_out : string) (lines : list string)
    (ret recs : list ProcInfo) (cache cache' : gmap Z (list string)) :
  cache_ok ps_out cache ->
  info_loop ps_out lines ret cache = Ok (recs, cache') ->
  Forall (window_line_ok ps_out) lines.
Proof.
  revert ret cache. induction lines as [|line lines IH]; intros ret cache Hc.
  - constructor.
  - simpl. destruct (String.eqb_spec (strip line) "") as [Hblank|Hblank].
    + intros H. constructor; [now left | exact (IH _ _ Hc H)].
    + intros (pi & c1 & Hpi & H)%cbind_Ok.
      destruct (parse_input_Ok _ _ _ _ _ Hc Hpi)
        as (Ht & H9 & f & parts & Hf & Hint & Hlk & Hlen).
      constructor; [|exact (IH _ _ (or_intror Ht) H)].
      right. rewrite split_strip in Hf.
      unfold fields in H9. rewrite split_strip in H9.
      split; [exact H9|].
      destruct (table_entry_line _ _ _ _ Ht Hlk Hlen) as (Hall & l & Hl & Hp & Hl11).
      exists f, (pid pi), c1, parts, l. auto 10.
Qed.

(** C10 does not hold as stated: the inventory is built although a line of
    the process listing has two fields only, far fewer than eleven; only
    the line of the window's own process needs eleven. *)
Lemma C10_short_process_line_accepted :
  (exists recs cache, get_proc_info wl0 ps0 ∅ = Ok (recs, cache) /\
                      length recs = 1) /\
  "v 6" ∈ split_on newline ps0 /\
  fields "v 6" = 2 /\
  ~ Forall (fun l => strip l = "" \/ 11 <= fields l) (split_on newline ps0).
Proof.
  assert (Hin : "v 6" ∈ split_on newline ps0).
  { apply (bool_decide_eq_true_1 ("v 6" ∈ split_on newline ps0)).
    vm_compute. reflexivity. }
  split; [|split; [exact Hin | split; [reflexivity|]]].
  - destruct (get_proc_info wl0 ps0 ∅) as [[recs cache]|e] eqn:H.
    + exists recs, cache. split; [reflexivity|].
      vm_compute in H. injection H as <- _. reflexivity.
    + vm_compute in H. discriminate.
  - intros Hall. rewrite Forall_forall in Hall.
    destruct (Hall _ Hin) as [H|H]; vm_compute in H; [discriminate | lia].
Qed.

(** C10, amended: the inventory is partial.  When it is built, every line
    of the window listing that is not blank has nine fields or more, the
    process listing was accepted (each line the header, blank, or of two
    fields or more with an integer second field), and the window's pid is
    a key of the process table whose own process line has eleven fields or
    more; a line of the window listing that misses any of this makes the
    whole inventory raise, it is not passed over. *)
Theorem C10_inventory_is_partial (wl_out ps_out : string) :
  (forall recs cache,
     get_proc_info wl_out ps_out ∅ = Ok (recs, cache) ->
     Forall (window_line_ok ps_out) (split_on newline wl_out)) /\
  (forall line,
     line ∈ split_on newline wl_out ->
     ~ window_line_ok ps_out line ->
     exists e, get_proc_info wl_out ps_out ∅ = Raise e).
Proof.
  assert (Hok : forall recs cache,
            get_proc_info wl_out ps_out ∅ = Ok (recs, cache) ->
            Forall (window_line_ok ps_out) (split_on newline wl_out)).
  { intros recs cache H. unfold get_proc_info in H.
    exact (info_loop_Ok _ _ _ _ _ _ (or_introl eq_refl) H). }
  split; [exact Hok|].
  intros line Hin Hbad.
  destruct (get_proc_info wl_out ps_out ∅) as [[recs cache]|e] eqn:H.
  - specialize (Hok recs cache eq_refl). rewrite Forall_forall in Hok.
    destruct (Hbad (Hok line Hin)).
  - now exists e.
Qed.

Lemma C10_inventory_is_partial_witness :
  exists e, get_proc_info wl_pid0 ps0 ∅ = Raise e.
Proof.
  apply (C10_inventory_is_partial wl_pid0 ps0)
    with (line := "0x01200004 -1 0  0 0 1920 1080 host Desktop").
  - apply (bool_decide_eq_true_1
             ("0x01200004 -1 0  0 0 1920 1080 host Desktop"
                ∈ split_on newline wl_pid0)).
    vm_compute. reflexivity.
  - intros [H | (_ & f & k & table & parts & l & Hf & Hint & Ht & _ & Hlk & _)].
    + vm_compute in H. discriminate.
    + vm_compute in Hf. injection Hf as <-.
      vm_compute in Hint. injection Hint as <-.
      vm_compute in Ht. injection Ht as <-.
      vm_compute in Hlk. discriminate.
Defined.

End InventoryFacts.
(** ** Further properties of the monitor watcher *)

Module ExtractorFacts.
Import Config AutoWin PyStr Notions Samples.

(** *** The serial pattern *)

Lemma prefix_ci_suffix (p s r : string) :
  prefix_ci p s = Some r -> exists a, s = a +:+ r.
Proof.
  revert s. induction p as [|x p IH]; intros s; simpl.
  - intros [= ->]. now exists "".
  - destruct s as [|c s]; [discriminate|].
    destruct (Ascii.eqb (lower_char c) x); [|discriminate].
    intros [a ->]%IH. exists (String c a). reflexivity.
Qed.

Lemma lstrip_suffix (s : string) : exists a, s = a +:+ lstrip s.
Proof.
  induction s as [|c s [a IH]]; simpl.
  - now exists "".
  - destruct (isspace c).
    + exists (String c a). exact (f_equal (String c) IH).
    + now exists "".
Qed.

Lemma blanks_suffix (s r : string) :
  blanks s = Some r -> exists a, s = a +:+ r.
Proof.
  destruct s as [|c s]; simpl; [discriminate|].
  destruct (isspace c); [|discriminate]. intros [= <-].
  destruct (lstrip_suffix s) as [a Ha]. exists (String c a).
  exact (f_equal (String c) Ha).
Qed.

Lemma group_run_prefix (s : string) : exists b, s = group_run s +:+ b.
Proof.
  induction s as [|c s [b IH]]; simpl.
  - now exists "".
  - destruct (is_quote c || isspace c).
    + now exists (String c s).
    + exists b. exact (f_equal (String c) IH).
Qed.

Lemma group_run_chars (s : string) :
  all_chars serial_char (group_run s) = true.
Proof.
  induction s as [|c s IH]; simpl; [reflexivity|].
  destruct (is_quote c || isspace c) eqn:Hc; [reflexivity|].
  simpl. unfold serial_char at 1. now rewrite Hc.
Qed.

Lemma append_assoc (a b c : string) : (a +:+ b) +:+ c = a +:+ (b +:+ c).
Proof.
  induction a as [|x a IH]; [reflexivity|].
  exact (f_equal (String x) IH).
Qed.

Lemma serial_match_at_group (s g : string) :
  serial_match_at s = Some g ->
  g <> "" /\ all_chars serial_char g = true /\ exists a b, s = a +:+ g +:+ b.
Proof.
  unfold serial_match_at.
  destruct (prefix_ci "serial" s) as [s1|] eqn:H1;
    cbn [mbind option_bind]; [|discriminate].
  destruct (blanks s1) as [s2|] eqn:H2;
    cbn [mbind option_bind]; [|discriminate].
  destruct (prefix_ci "number:" s2) as [s3|] eqn:H3;
    cbn [mbind option_bind]; [|discriminate].
  destruct (blanks s3) as [s4|] eqn:H4;
    cbn [mbind option_bind]; [|discriminate].
  remember (match s4 with
            | String c s' => if is_quote c then s' else s4
            | EmptyString => s4
            end) as s5 eqn:Es5.
  assert (H5 : exists a, s4 = a +:+ s5).
  { rewrite Es5. destruct s4 as [|c s']; [now exists ""|].
    destruct (is_quote c); [now exists (String c "") | now exists ""]. }
  clear Es5.
  destruct (group_run s5) as [|c g'] eqn:Hg; [discriminate|].
  intros [= <-]. split; [discriminate|]. split.
  - rewrite <- Hg. apply group_run_chars.
  - apply prefix_ci_suffix in H1 as [a1 ->].
    apply blanks_suffix in H2 as [a2 ->].
    apply prefix_ci_suffix in H3 as [a3 ->].
    apply blanks_suffix in H4 as [a4 ->].
    destruct H5 as [a5 ->].
    destruct (group_run_prefix s5) as [b Hb]. rewrite Hg in Hb.
    exists (a1 +:+ a2 +:+ a3 +:+ a4 +:+ a5), b.
    rewrite Hb at 1. now rewrite !append_assoc.
Qed.

Lemma serial_search_inv (line g : string) :
  serial_search line = Some g ->
  g <> "" /\ all_chars serial_char g = true /\ contains g line = true.
Proof.
  induction line as [|c line IH]; cbn [serial_search].
  - destruct (serial_match_at "") as [g'|] eqn:Hm; [|discriminate].
    intros [= ->]. apply serial_match_at_group in Hm as (Hne & Hch & Hsub).
    repeat split; [assumption..|]. now apply PyStrFacts.contains_substring.
  - destruct (serial_match_at (String c line)) as [g'|] eqn:Hm.
    + intros [= ->]. apply serial_match_at_group in Hm as (Hne & Hch & Hsub).
      repeat split; [assumption..|]. now apply PyStrFacts.contains_substring.
    + intros (Hne & Hch & Hsub)%IH. repeat split; [assumption..|].
      cbn [contains]. rewrite Hsub. apply orb_true_r.
Qed.

(** X1: the group of a match of the serial pattern is a piece of the line,
    not empty, with no blank and no quote in it. *)
Theorem serial_search_group (line g : string) :
  serial_search line = Some g ->
  g <> "" /\ all_chars serial_char g = true /\ contains g line = true.
Proof. apply serial_search_inv. Qed.

Lemma serial_search_group_witness :
  contains "SN123" "    Serial Number: 'SN123'" = true.
Proof.
  apply (serial_search_group "    Serial Number: 'SN123'" "SN123").
  vm_compute. reflexivity.
Defined.

(** *** The scan of a descriptor *)

Lemma scan_edid_record (bi : BuiltIn) (mf mo se : string)
    (lines : list string) (m : Monitor) :
  all_chars serial_char se = true ->
  scan_edid bi mf mo se lines = Ok (Some m) ->
  (built_in m = false /\ serial m <> "" /\
   all_chars serial_char (serial m) = true) \/
  (built_in m = true /\ serial m = "" /\
   manufacturer m = bi_manufacturer bi /\ model m = bi_model bi).
Proof.
  revert mf mo se. induction lines as [|line lines IH]; intros mf mo se Hse.
  - discriminate.
  - cbn [scan_edid].
    destruct (contains "manufacturer:" (lower line)).
    { destruct (index (split line) 1); cbn [rbind]; [now apply IH | discriminate]. }
    destruct (contains "model:" (lower line)).
    { destruct (index (split line) 1); cbn [rbind]; [now apply IH | discriminate]. }
    destruct (serial_search line) as [g|] eqn:Hg.
    { apply IH. now apply serial_search_inv in Hg as (_ & ? & _). }
    destruct (String.eqb_spec se "") as [->|Hne]; cbn [negb].
    + destruct (String.eqb_spec mf (bi_manufacturer bi)) as [->|?];
        [destruct (String.eqb_spec mo (bi_model bi)) as [->|?]|]; cbn [andb].
      * intros [= <-]. right. repeat split.
      * now apply IH.
      * now apply IH.
    + intros [= <-]. left. repeat split; assumption.
Qed.

(** X2: a record of [get_mon_from_edid] is of one of two kinds: flagged
    external, with a serial that is not empty and has no blank and no
    quote; or flagged built-in, with no serial and the manufacturer and
    model of the configured panel. *)
Theorem get_mon_from_edid_record (edid_info : string) (bi : BuiltIn)
    (m : Monitor) :
  get_mon_from_edid edid_info bi = Ok (Some m) ->
  (built_in m = false /\ serial m <> "" /\
   all_chars serial_char (serial m) = true) \/
  (built_in m = true /\ serial m = "" /\
   manufacturer m = bi_manufacturer bi /\ model m = bi_model bi).
Proof. apply scan_edid_record. reflexivity. Qed.

Lemma get_mon_from_edid_record_witness :
  (built_in MonPanel = false /\ serial MonPanel <> "" /\
   all_chars serial_char (serial MonPanel) = true) \/
  (built_in MonPanel = true /\ serial MonPanel = "" /\
   manufacturer MonPanel = bi_manufacturer panel /\
   model MonPanel = bi_model panel).
Proof.
  apply (get_mon_from_edid_record edid_panel panel MonPanel).
  vm_compute. reflexivity.
Defined.

Lemma scan_edid_raise (bi : BuiltIn) (mf mo se : string)
    (lines : list string) (e : exn) :
  scan_edid bi mf mo se lines = Raise e ->
  e = IndexError /\
  Exists (fun line => field_line line = true /\ length (split line) < 2) lines.
Proof.
  revert mf mo se. induction lines as [|line lines IH]; intros mf mo se.
  - discriminate.
  - cbn [scan_edid]. unfold field_line.
    destruct (contains "manufacturer:" (lower line)) eqn:Hm.
    { unfold index. destruct (split line !! 1) as [w|] eqn:Hw; cbn [rbind].
      - intros [-> H]%IH. split; [reflexivity | now right].
      - intros [= <-]. split; [reflexivity|]. left.
        split; [now rewrite Hm|]. apply lookup_ge_None in Hw. lia. }
    destruct (contains "model:" (lower line)) eqn:Hmo.
    { unfold index. destruct (split line !! 1) as [w|] eqn:Hw; cbn [rbind].
      - intros [-> H]%IH. split; [reflexivity | now right].
      - intros [= <-]. split; [reflexivity|]. left.
        split; [now rewrite Hm, Hmo|]. apply lookup_ge_None in Hw. lia. }
    destruct (serial_search line).
    { intros [-> H]%IH. split; [reflexivity | now right]. }
    destruct (negb (String.eqb se "")); [discriminate|].
    destruct (String.eqb mf (bi_manufacturer bi) && String.eqb mo (bi_model bi));
      [discriminate|].
    intros [-> H]%IH. split; [reflexivity | now right].
Qed.

(** X3: the only exception of [get_mon_from_edid] is [IndexError], and it
    comes from a line that names the manufacturer or the model and has
    fewer than two fields. *)
Theorem get_mon_from_edid_raises (edid_info : string) (bi : BuiltIn) (e : exn) :
  get_mon_from_edid edid_info bi = Raise e ->
  e = IndexError /\
  exists line, line ∈ split_on newline edid_info /\
               field_line line = true /\ length (split line) < 2.
Proof.
  intros [-> H]%scan_edid_raise. split; [reflexivity|].
  apply Exists_exists in H as (line & Hin & H). now exists line.
Qed.

Lemma get_mon_from_edid_raises_witness :
  IndexError = IndexError /\
  exists line, line ∈ split_on newline "Manufacturer:" /\
               field_line line = true /\ length (split line) < 2.
Proof.
  apply (get_mon_from_edid_raises "Manufacturer:" panel IndexError).
  vm_compute. reflexivity.
Defined.

(** *** What follows the deciding line is not read *)

Lemma scan_edid_app (bi : BuiltIn) (mf mo se : string)
    (lines more : list string) (r : result (option Monitor)) :
  scan_edid bi mf mo se lines = r ->
  r <> Ok None ->
  scan_edid bi mf mo se (lines ++ more) = r.
Proof.
  revert mf mo se. induction lines as [|line lines IH]; intros mf mo se.
  - intros <- H. now destruct H.
  - cbn [scan_edid app].
    destruct (contains "manufacturer:" (lower line)).
    { destruct (index (split line) 1); cbn [rbind]; [apply IH | auto]. }
    destruct (contains "model:" (lower line)).
    { destruct (index (split line) 1); cbn [rbind]; [apply IH | auto]. }
    destruct (serial_search line); [apply IH|].
    destruct (negb (String.eqb se "")); [auto|].
    destruct (String.eqb mf (bi_manufacturer bi) && String.eqb mo (bi_model bi));
      [auto | apply IH].
Qed.

Lemma split_on_nonempty (sep : ascii) (s : string) : split_on sep s <> [].
Proof.
  destruct s as [|c s]; simpl; [discriminate|].
  destruct (Ascii.eqb c sep); [discriminate|].
  destruct (split_on sep s); discriminate.
Qed.

Lemma split_on_app (sep : ascii) (a b : string) :
  split_on sep (a +:+ String sep b) = split_on sep a ++ split_on sep b.
Proof.
  induction a as [|c a IH].
  - change ("" +:+ String sep b) with (String sep b).
    cbn [split_on]. now rewrite Ascii.eqb_refl.
  - change (String c a +:+ String sep b) with (String c (a +:+ String sep b)).
    cbn [split_on]. rewrite IH.
    destruct (Ascii.eqb c sep); [reflexivity|].
    pose proof (split_on_nonempty sep a).
    destruct (split_on sep a); [contradiction | reflexivity].
Qed.

(** X4: once a descriptor yields a record, or an exception, text added
    after it on new lines changes nothing: the scan stops at the line
    that decides. *)
Theorem get_mon_from_edid_stops (edid_info more : string) (bi : BuiltIn)
    (r : result (option Monitor)) :
  get_mon_from_edid edid_info bi = r ->
  r <> Ok None ->
  get_mon_from_edid (edid_info +:+ String newline more) bi = r.
Proof.
  unfold get_mon_from_edid. intros H Hr. rewrite split_on_app.
  now apply scan_edid_app.
Qed.

Lemma get_mon_from_edid_stops_witness :
  get_mon_from_edid (edid_panel +:+ String newline edid_serial_then_more) panel
    = Ok (Some MonPanel).
Proof.
  apply (get_mon_from_edid_stops edid_panel edid_serial_then_more panel).
  - vm_compute. reflexivity.
  - discriminate.
Defined.

End ExtractorFacts.

(** ** Further properties of the classifier *)

Module ClassifierFacts.
Import Config AutoWin Notions Trace Samples WatcherFacts.

Lemma as_dict_lookup (m : Monitor) :
  as_dict m !! "manufacturer" = Some (manufacturer m) /\
  as_dict m !! "model" = Some (model m) /\
  as_dict m !! "serial" = Some (serial m).
Proof. unfold as_dict. repeat split; by simplify_map_eq. Qed.

(** X5: the identity dict forgets the built-in flag and nothing else: two
    monitors have the same dict exactly when manufacturer, model and serial
    agree. *)
Theorem as_dict_identity (m1 m2 : Monitor) :
  as_dict m1 = as_dict m2 <->
  manufacturer m1 = manufacturer m2 /\ model m1 = model m2 /\
  serial m1 = serial m2.
Proof.
  split.
  - intros H.
    destruct (as_dict_lookup m1) as (H1 & H2 & H3).
    destruct (as_dict_lookup m2) as (K1 & K2 & K3).
    rewrite H in H1, H2, H3. repeat split; congruence.
  - intros (H1 & H2 & H3). unfold as_dict. now rewrite H1, H2, H3.
Qed.

(** *** The loop over the configured sets *)

Lemma match_loop_Some (mons : list Monitor)
    (items : list (string * mon_value)) (name : string) :
  match_loop mons items = Ok (Some name) <->
  exists before l after,
    items = before ++ (name, MList l) :: after /\
    name <> "built in" /\
    is_mon_match mons l = true /\
    Forall (passed_over mons) before.
Proof.
  induction items as [|[n v] items IH]; cbn [match_loop].
  - split; [discriminate|]. intros ([|x0 b0] & ml & after & H & _); discriminate.
  - destruct (String.eqb_spec n "built in") as [->|Hn].
    + rewrite IH. split.
      * intros (before & l & after & -> & Hne & Hm & Hb).
        exists (("built in", v) :: before), l, after.
        repeat split; [assumption..|]. constructor; [now left | assumption].
      * intros ([|x before] & l & after & Heq & Hne & Hm & Hb).
        -- injection Heq as <- _. contradiction.
        -- injection Heq as <- ->. inversion Hb; subst.
           exists before, l, after. repeat split; assumption.
    + destruct v as [bi|mlist].
      * destruct (Nat.eqb_spec (length mons) 3) as [Hlen|Hlen]; cbn [negb].
        -- split; [discriminate|].
           intros ([|x before] & l & after & Heq & Hne & Hm & Hb).
           ++ discriminate.
           ++ injection Heq as <- ->. inversion Hb as [|? ? Hx _]; subst.
              destruct Hx as [Hx | [(l' & Hx & _) | (bi' & _ & Hx)]];
                simpl in Hx; [contradiction | discriminate | contradiction].
        -- rewrite IH. split.
           ++ intros (before & l & after & -> & Hne & Hm & Hb).
              exists ((n, MBuiltIn bi) :: before), l, after.
              repeat split; [assumption..|].
              constructor; [|assumption]. right; right. now exists bi.
           ++ intros ([|x before] & l & after & Heq & Hne & Hm & Hb).
              ** discriminate.
              ** injection Heq as <- ->. inversion Hb; subst.
                 exists before, l, after. repeat split; assumption.
      * destruct (is_mon_match mons mlist) eqn:Hmatch.
        -- split.
           ++ intros [= <-]. exists [], mlist, items.
              repeat split; [assumption.. | constructor].
           ++ intros ([|x before] & l & after & Heq & Hne & Hm & Hb).
              ** now injection Heq as -> _ _.
              ** injection Heq as <- ->. inversion Hb as [|? ? Hx _]; subst.
                 destruct Hx as [Hx | [(l' & Hx & Hf) | (bi' & Hx & _)]];
                   simpl in Hx; [contradiction | | discriminate].
                 injection Hx as <-. congruence.
        -- rewrite IH. split.
           ++ intros (before & l & after & -> & Hne & Hm & Hb).
              exists ((n, MList mlist) :: before), l, after.
              repeat split; [assumption..|].
              constructor; [|assumption]. right; left. now exists mlist.
           ++ intros ([|x before] & l & after & Heq & Hne & Hm & Hb).
              ** injection Heq as -> <- _. congruence.
              ** injection Heq as <- ->. inversion Hb; subst.
                 exists before, l, after. repeat split; assumption.
Qed.

(** X6: the first configured set that matches wins: the loop returns a name
    exactly when the item of that name holds a matching list and every item
    before it is passed over. *)
Theorem match_loop_first (mons : list Monitor)
    (items : list (string * mon_value)) (name : string) :
  match_loop mons items = Ok (Some name) <->
  exists before l after,
    items = before ++ (name, MList l) :: after /\
    name <> "built in" /\
    is_mon_match mons l = true /\
    Forall (passed_over mons) before.
Proof. apply match_loop_Some. Qed.

Lemma match_loop_first_witness :
  match_loop [MonB; MonA]
    [ ("built in", MBuiltIn panel);
      ("work", MList [as_dict MonA; as_dict MonB]);
      ("home", MList [as_dict MonPanel]) ] = Ok (Some "work").
Proof.
  apply (match_loop_first [MonB; MonA] _ "work").
  exists [("built in", MBuiltIn panel)], [as_dict MonA; as_dict MonB],
         [("home", MList [as_dict MonPanel])].
  split; [reflexivity|]. split; [discriminate|].
  split; [vm_compute; reflexivity|].
  constructor; [now left | constructor].
Defined.

(** *** What the classifier looks at *)

Lemma match_loop_perm (mons mons' : list Monitor)
    (items : list (string * mon_value)) :
  mons ≡ₚ mons' -> match_loop mons' items = match_loop mons items.
Proof.
  intros Hp. induction items as [|[n v] items IH]; cbn [match_loop];
    [reflexivity|].
  destruct (String.eqb n "built in"); [exact IH|].
  destruct v as [bi|mlist].
  - rewrite <- (Permutation_length Hp), IH. reflexivity.
  - rewrite (is_mon_match_perm mons mons' mlist mlist Hp (reflexivity _)), IH.
    reflexivity.
Qed.

Lemma not_alone_single (ms : list Monitor) :
  ~ panel_alone ms ->
  match map Some ms with
  | [m] => attr_built_in m
  | _ => Ok false
  end = Ok false.
Proof.
  intros Hn. destruct ms as [|m [|m' ms']]; try reflexivity.
  simpl. destruct (built_in m) eqn:Hb; [|reflexivity].
  destruct Hn. now exists m.
Qed.

Lemma classifier_externals (ms : list Monitor) (conf : Conf) :
  ~ panel_alone ms ->
  get_cur_state_name (map Some ms) conf =
    (items <-- conf_mon_items conf ;; match_loop (externals ms) items).
Proof.
  intros Hn. unfold get_cur_state_name.
  rewrite (not_alone_single ms Hn). cbn [rbind].
  now rewrite drop_built_in_Some.
Qed.

(** X7: unless the panel is the only monitor, the classifier looks at the
    external monitors only, and not at their order: two monitor lists with
    the same externals, in any order, with or without the panel, get the
    same answer. *)
Theorem classifier_externals_only (ms1 ms2 : list Monitor) (conf : Conf) :
  ~ panel_alone ms1 -> ~ panel_alone ms2 ->
  externals ms1 ≡ₚ externals ms2 ->
  get_cur_state_name (map Some ms1) conf
    = get_cur_state_name (map Some ms2) conf.
Proof.
  intros H1 H2 Hp. rewrite !classifier_externals by assumption.
  destruct (conf_mon_items conf) as [items|e]; [|reflexivity].
  cbn [rbind]. symmetry. now apply match_loop_perm.
Qed.

Lemma classifier_externals_only_witness :
  get_cur_state_name (map Some [MonA; MonB; MonPanel]) conf0
    = get_cur_state_name (map Some [MonB; MonA]) conf0 /\
  get_cur_state_name (map Some [MonA; MonB; MonPanel]) conf0
    = Ok (Some "work").
Proof.
  split.
  - apply (classifier_externals_only [MonA; MonB; MonPanel] [MonB; MonA] conf0).
    + intros (m & [=] & _).
    + intros (m & [=] & _).
    + apply perm_swap.
  - vm_compute. reflexivity.
Defined.

Lemma classifier_name_inv (mons : list (option Monitor)) (conf : Conf)
    (name : string) :
  get_cur_state_name mons conf = Ok (Some name) ->
  (exists bi, conf_built_in conf = Ok bi /\ name = bi_map bi) \/
  (exists items, conf_mon_items conf = Ok items /\
                 name ∈ dict_keys items /\ name <> "built in").
Proof.
  unfold get_cur_state_name.
  intros (single & _ & H)%InventoryFacts.rbind_Ok.
  destruct single.
  - apply InventoryFacts.rbind_Ok in H as (bi & Hbi & [= <-]).
    left. now exists bi.
  - apply InventoryFacts.rbind_Ok in H as (mons' & _ & H).
    apply InventoryFacts.rbind_Ok in H as (items & Hitems & H).
    right. exists items. split; [exact Hitems|].
    apply match_loop_Some in H as (before & l & after & -> & Hne & _).
    split; [|exact Hne].
    unfold dict_keys. rewrite map_app. apply elem_of_app. right.
    apply list_elem_of_here.
Qed.

(** X8: a name the classifier returns is configured: it is the state name
    of the panel's entry, or a key of the monitor map other than the
    panel's. *)
Theorem classifier_name_configured (mons : list (option Monitor)) (conf : Conf)
    (name : string) :
  get_cur_state_name mons conf = Ok (Some name) ->
  (exists bi, conf_built_in conf = Ok bi /\ name = bi_map bi) \/
  (exists items, conf_mon_items conf = Ok items /\
                 name ∈ dict_keys items /\ name <> "built in").
Proof. apply classifier_name_inv. Qed.

Lemma classifier_name_configured_witness :
  (exists bi, conf_built_in conf0 = Ok bi /\ "work" = bi_map bi) \/
  (exists items, conf_mon_items conf0 = Ok items /\
                 "work" ∈ dict_keys items /\ "work" <> "built in").
Proof.
  apply (classifier_name_configured (map Some [MonA; MonB; MonPanel]) conf0).
  vm_compute. reflexivity.
Defined.

End ClassifierFacts.

(** ** Further properties of a run of the watcher *)

Module RunFacts.
Import Config AutoWin Notions Trace Samples WatcherFacts ClassifierFacts.

(** *** Reading the outputs *)

(** The text [get_edid_info] looks for is the empty report of the
    output. *)
Lemma empty_report_path (d : string) :
  "EDID of '" +:+ edid_path d +:+ "' was empty" = empty_report d.
Proof.
  unfold edid_path, empty_report, SYS_PATH.
  change ("EDID of '/sys/class/drm/" +:+ ((d +:+ "/edid") +:+ "' was empty")
          = "EDID of '/sys/class/drm/" +:+ d +:+ "/edid' was empty").
  now rewrite ExtractorFacts.append_assoc.
Qed.

Lemma get_edid_info_readable (d : DrmEntry) (out : string) :
  d_edid d = Some out ->
  get_edid_info (edid_path (d_name d)) out
    = if readable d then Some out else None.
Proof.
  intros Hd. unfold readable, get_edid_info, PyStr.startswith.
  rewrite Hd, empty_report_path.
  now destruct (String.prefix (empty_report (d_name d)) out).
Qed.

Lemma readable_file (d : DrmEntry) : d_edid d = None -> readable d = false.
Proof. unfold readable. now intros ->. Qed.

Lemma conn_loop_readable (bi : BuiltIn) (entries : list DrmEntry)
    (monitors : list (option Monitor)) :
  conn_loop bi (List.filter readable entries) monitors
    = conn_loop bi entries monitors.
Proof.
  revert monitors. induction entries as [|d entries IH]; intros monitors;
    [reflexivity|].
  cbn [List.filter conn_loop].
  destruct (d_edid d) as [out|] eqn:Hd;
    [|rewrite (readable_file d Hd); apply IH].
  rewrite (get_edid_info_readable d out Hd).
  destruct (readable d) eqn:Hr; [|apply IH].
  cbn [conn_loop]. rewrite Hd, (get_edid_info_readable d out Hd), Hr.
  destruct (get_mon_from_edid out bi); cbn [rbind]; [apply IH | reflexivity].
Qed.

Lemma conn_loop_length (bi : BuiltIn) (entries : list DrmEntry)
    (monitors mons : list (option Monitor)) :
  conn_loop bi entries monitors = Ok mons ->
  length mons = length monitors + length (List.filter readable entries).
Proof.
  revert monitors. induction entries as [|d entries IH]; intros monitors.
  - intros [= <-]. simpl. lia.
  - cbn [List.filter conn_loop].
    destruct (d_edid d) as [out|] eqn:Hd;
      [|rewrite (readable_file d Hd); apply IH].
    rewrite (get_edid_info_readable d out Hd).
    destruct (readable d); [|apply IH].
    destruct (get_mon_from_edid out bi) as [m|e]; cbn [rbind]; [|discriminate].
    intros ->%IH. rewrite length_app. simpl. lia.
Qed.

(** X9: an output without a descriptor file, and an output for which the
    decoder prints the report that its descriptor was empty, are passed
    over: the monitor list is the one of the other outputs alone, and has
    one item for each of them. *)
Theorem get_conn_monitors_skips (entries : list DrmEntry) (conf : Conf) :
  get_conn_monitors (List.filter readable entries) conf
    = get_conn_monitors entries conf /\
  (forall mons, get_conn_monitors entries conf = Ok mons ->
                length mons = length (List.filter readable entries)).
Proof.
  unfold get_conn_monitors. destruct (conf_built_in conf) as [bi|e];
    cbn [rbind].
  - split; [apply conn_loop_readable|].
    intros mons H. now apply conn_loop_length in H.
  - split; [reflexivity | discriminate].
Qed.

Lemma get_conn_monitors_skips_witness :
  get_conn_monitors
    [ mkDrm "version" None;
      mkDrm "card0-HDMI-A-1"
            (Some "EDID of '/sys/class/drm/card0-HDMI-A-1/edid' was empty.");
      mkDrm "card0-DP-1" (Some edid_serial_then_more) ]
    conf0
  = get_conn_monitors [ mkDrm "card0-DP-1" (Some edid_serial_then_more) ] conf0
  /\
  get_conn_monitors
    [ mkDrm "version" None;
      mkDrm "card0-HDMI-A-1"
            (Some "EDID of '/sys/class/drm/card0-HDMI-A-1/edid' was empty.");
      mkDrm "card0-DP-1" (Some edid_serial_then_more) ]
    conf0
  = Ok [Some MonC].
Proof.
  destruct (get_conn_monitors_skips
              [ mkDrm "version" None;
                mkDrm "card0-HDMI-A-1"
                  (Some "EDID of '/sys/class/drm/card0-HDMI-A-1/edid' was empty.");
                mkDrm "card0-DP-1" (Some edid_serial_then_more) ]
              conf0) as [Heq _].
  split.
  - symmetry. exact Heq.
  - rewrite <- Heq. vm_compute. reflexivity.
Defined.

(** *** The shapes of a run *)

Lemma adjust_windows_kind (w : World) (cur : option string) :
  w_state_file w <> Some (state_of cur) ->
  run_kind w (adjust_windows (state_of cur) w (warnings cur)).
Proof.
  intros Hs. unfold adjust_windows.
  destruct (String.eqb_spec (state_of cur) UNKNOWN_STATE) as [Hu|Hu];
    cbn [negb].
  - rewrite Hu in *. destruct cur; [now apply RunSaveOnly | now apply RunUnknown].
  - destruct cur as [name|]; [|contradiction]. simpl in *.
    destruct (Z.eqb_spec (w_adjwin_exit w name) 0) as [Hz|Hz].
    + now apply RunPlaced.
    + now apply RunPlaceFailed.
Qed.

Lemma main_kind (b : bool) (conf : Conf) (w : World) :
  run_kind w (main b conf w).
Proof.
  destruct (get_conn_monitors (w_drm w) conf) as [mons|e] eqn:Hm;
    [|unfold main; rewrite Hm; apply RunFailed].
  destruct b; [unfold main; rewrite Hm; apply RunListed|].
  destruct (get_cur_state_name mons conf) as [cur|e] eqn:Hc;
    [|unfold main; rewrite Hm, Hc; apply RunFailed].
  rewrite (main_classified conf w mons cur Hm Hc).
  case_bool_decide as Hs; [now apply RunSame | now apply adjust_windows_kind].
Qed.

Lemma listing_quiet (mons : list (option Monitor)) :
  List.filter is_placement (PrintHeader :: map PrintMon mons) = [] /\
  List.filter is_write (PrintHeader :: map PrintMon mons) = [].
Proof.
  simpl. induction mons as [|m mons [IH1 IH2]]; [split; reflexivity|].
  simpl. now split.
Qed.

Lemma listing_events (mons : list (option Monitor)) (e : event) :
  e ∈ PrintHeader :: map PrintMon mons ->
  is_placement e = false /\ is_write e = false.
Proof.
  intros [->|H]%elem_of_cons; [now split|].
  apply list_elem_of_fmap in H as (m & -> & _). now split.
Qed.

Lemma monitors_only_quiet (conf : Conf) (w : World) :
  placements (main true conf w) = [] /\
  writes (main true conf w) = [] /\
  run_state_file (main true conf w) = w_state_file w /\
  (forall mons, get_conn_monitors (w_drm w) conf = Ok mons ->
     run_result (main true conf w) = Ok 0%Z /\
     run_events (main true conf w) = PrintHeader :: map PrintMon mons).
Proof.
  unfold main, placements, writes.
  destruct (get_conn_monitors (w_drm w) conf) as [mons|e];
    cbn [run_events run_state_file run_result].
  - destruct (listing_quiet mons) as [-> ->].
    split; [reflexivity|]. split; [reflexivity|]. split; [reflexivity|].
    intros ? [= <-]. split; reflexivity.
  - split; [reflexivity|]. split; [reflexivity|]. split; [reflexivity|].
    intros ? [=].
Qed.

(** X10: a run that only lists the monitors has no side effect: it calls no
    placement, writes no state and leaves the state file as it is, whatever
    the configuration and the outputs; when the outputs can be read it
    returns 0 after one line for each monitor, unidentified ones
    included. *)
Theorem monitors_only_no_side_effect (conf : Conf) (w : World) :
  placements (main true conf w) = [] /\
  writes (main true conf w) = [] /\
  run_state_file (main true conf w) = w_state_file w /\
  (forall mons, get_conn_monitors (w_drm w) conf = Ok mons ->
     run_result (main true conf w) = Ok 0%Z /\
     run_events (main true conf w) = PrintHeader :: map PrintMon mons).
Proof. apply monitors_only_quiet. Qed.

(** Membership in a list that is written out. *)
Ltac inv_mem H :=
  repeat (apply elem_of_cons in H as [H|H]; [try discriminate H|]);
  try (now apply not_elem_of_nil in H).

(** X11: the placement tool is called at most once in a run and never for
    the sentinel state; when it returns 0 the state it was called for is
    saved, and when it fails nothing is saved. *)
Theorem placement_discipline (b : bool) (conf : Conf) (w : World) :
  length (placements (main b conf w)) <= 1 /\
  (RunAdjwin UNKNOWN_STATE ∉ run_events (main b conf w)) /\
  (forall s, RunAdjwin s ∈ run_events (main b conf w) ->
     (w_adjwin_exit w s = 0%Z /\
      run_events (main b conf w) = [RunAdjwin s; WriteState s] /\
      run_state_file (main b conf w) = Some s /\
      run_result (main b conf w) = Ok 0%Z) \/
     (w_adjwin_exit w s <> 0%Z /\
      writes (main b conf w) = [] /\
      run_state_file (main b conf w) = w_state_file w /\
      run_result (main b conf w)
        = Raise (CalledProcessError (w_adjwin_exit w s)))).
Proof.
  destruct (main_kind b conf w) as
    [e | mons | cur Hs | Hs | Hs | name Hn Hs Hz | name Hn Hs Hz];
    unfold placements, writes; cbn [run_events run_state_file run_result].
  - split; [simpl; lia|]. split; [intros H; inv_mem H|].
    intros s H; inv_mem H.
  - destruct (listing_quiet mons) as [-> _].
    split; [simpl; lia|]. split.
    + intros H. now apply listing_events in H as [H _].
    + intros s H. now apply listing_events in H as [H _].
  - destruct (warnings_quiet cur) as [-> _].
    split; [simpl; lia|].
    destruct cur as [nm|]; cbn [warnings];
      (split; [intros H; inv_mem H | intros s H; inv_mem H]).
  - split; [simpl; lia|]. split; [intros H; inv_mem H|].
    intros s H; inv_mem H.
  - split; [simpl; lia|]. split; [intros H; inv_mem H|].
    intros s H; inv_mem H.
  - split; [simpl; lia|]. split.
    + intros H. apply elem_of_cons in H as [H|H]; [|inv_mem H].
      injection H as H. congruence.
    + intros s H. apply elem_of_cons in H as [H|H]; [|inv_mem H].
      injection H as ->. left. auto.
  - split; [simpl; lia|]. split.
    + intros H. apply list_elem_of_singleton in H. injection H as H.
      congruence.
    + intros s H. apply list_elem_of_singleton in H. injection H as ->.
      right. auto.
Qed.

(** X12: the state file changes through a write only: after a run it is as
    before, or the run ended with status 0 on a write of the state the
    file now holds; and a state that is written is the sentinel or a
    configured name. *)
Theorem state_file_discipline (b : bool) (conf : Conf) (w : World) :
  (run_state_file (main b conf w) = w_state_file w /\
   writes (main b conf w) = []) \/
  (exists evs s,
     run_events (main b conf w) = evs ++ [WriteState s] /\
     writes (main b conf w) = [WriteState s] /\
     run_state_file (main b conf w) = Some s /\
     run_result (main b conf w) = Ok 0%Z /\
     (s = UNKNOWN_STATE \/
      (exists bi, conf_built_in conf = Ok bi /\ s = bi_map bi) \/
      (exists items, conf_mon_items conf = Ok items /\ s ∈ dict_keys items))).
Proof.
  destruct b.
  { left. destruct (monitors_only_quiet conf w) as (_ & Hw & Hf & _).
    now split. }
  destruct (get_conn_monitors (w_drm w) conf) as [mons|e] eqn:Hm;
    [|left; unfold main, writes; rewrite Hm; now split].
  destruct (get_cur_state_name mons conf) as [cur|e] eqn:Hc;
    [|left; unfold main, writes; rewrite Hm, Hc; now split].
  rewrite (main_classified conf w mons cur Hm Hc).
  case_bool_decide as Hs.
  { left. unfold writes. cbn. now destruct (warnings_quiet cur) as [_ ->]. }
  assert (Hconf : state_of cur = UNKNOWN_STATE \/
      (exists bi, conf_built_in conf = Ok bi /\ state_of cur = bi_map bi) \/
      (exists items, conf_mon_items conf = Ok items /\
                     state_of cur ∈ dict_keys items)).
  { destruct cur as [name|]; [|now left]. right.
    destruct (classifier_name_inv mons conf name Hc)
      as [?|(items & ? & ? & _)]; [now left | right; now exists items]. }
  unfold adjust_windows.
  destruct (negb (String.eqb (state_of cur) UNKNOWN_STATE)) eqn:Hu.
  - destruct cur as [name|]; [|discriminate]. cbn in *.
    destruct (w_adjwin_exit w name =? 0)%Z.
    + right. exists [RunAdjwin name], name. now repeat split.
    + left. now split.
  - right. exists (warnings cur), (state_of cur).
    unfold writes. cbn. rewrite List.filter_app.
    destruct (warnings_quiet cur) as [_ ->]. now repeat split.
Qed.

(** X13: when the placement tool fails, the state is not saved, so the next
    run with the same monitors calls the tool again. *)
Theorem failed_placement_is_retried (conf : Conf) (w : World)
    (mons : list (option Monitor)) (name : string) :
  get_conn_monitors (w_drm w) conf = Ok mons ->
  get_cur_state_name mons conf = Ok (Some name) ->
  name <> UNKNOWN_STATE ->
  w_state_file w <> Some name ->
  w_adjwin_exit w name <> 0%Z ->
  run_result (main false conf w)
    = Raise (CalledProcessError (w_adjwin_exit w name)) /\
  run_state_file (main false conf w) = w_state_file w /\
  placements (main false conf (after w (main false conf w)))
    = [RunAdjwin name].
Proof.
  intros Hm Hc Hn Hs Hz.
  assert (Hrun : main false conf w =
                 mkRun [RunAdjwin name] (w_state_file w)
                       (Raise (CalledProcessError (w_adjwin_exit w name)))).
  { rewrite (main_classified conf w mons (Some name) Hm Hc).
    cbn [state_of warnings]. rewrite bool_decide_eq_false_2 by exact Hs.
    unfold adjust_windows.
    destruct (String.eqb_spec name UNKNOWN_STATE) as [?|_]; [contradiction|].
    cbn [negb]. destruct (Z.eqb_spec (w_adjwin_exit w name) 0) as [?|_];
      [contradiction | reflexivity]. }
  rewrite Hrun. cbn [run_result run_state_file].
  split; [reflexivity|]. split; [reflexivity|].
  assert (Hw : after w (mkRun [RunAdjwin name] (w_state_file w)
                 (Raise (CalledProcessError (w_adjwin_exit w name)))) = w)
    by now destruct w.
  rewrite Hw, Hrun. reflexivity.
Qed.

Lemma failed_placement_is_retried_witness :
  placements
    (main false conf0
       (after (mkWorld [mkDrm "card0-DP-1" (Some edid_panel)] None (fun _ => 1%Z))
          (main false conf0
             (mkWorld [mkDrm "card0-DP-1" (Some edid_panel)] None
                      (fun _ => 1%Z)))))
    = [RunAdjwin "laptop"].
Proof.
  apply (failed_placement_is_retried conf0
           (mkWorld [mkDrm "card0-DP-1" (Some edid_panel)] None (fun _ => 1%Z))
           [Some MonPanel] "laptop").
  - vm_compute. reflexivity.
  - vm_compute. reflexivity.
  - discriminate.
  - discriminate.
  - discriminate.
Defined.

(** *** The watcher and the placement tool together *)

Lemma adjwin_fails_without_profile (conf : Conf) (wl_out ps_out name : string) :
  name ∉ dict_keys conf ->
  adjwin_exit_of conf wl_out ps_out name = 1%Z.
Proof.
  intros Hk%PlacementFacts.dict_get_None.
  unfold adjwin_exit_of, AdjWin.main. rewrite Hk.
  now destruct (AdjWin.get_proc_info wl_out ps_out ∅) as [[procs c]|e].
Qed.

Lemma adjwin_succeeds_with_profile (conf : Conf) (wl_out ps_out name : string)
    (prof : list Rule) (procs : list AdjWin.ProcInfo)
    (cache : gmap Z (list string)) :
  dict_get name conf = Some (CProfile prof) ->
  AdjWin.get_proc_info wl_out ps_out ∅ = Ok (procs, cache) ->
  adjwin_exit_of conf wl_out ps_out name = 0%Z.
Proof.
  intros Hk Hp. unfold adjwin_exit_of, AdjWin.main. rewrite Hp, Hk.
  cbn. unfold AdjWin.move_windows, getitem. rewrite Hk.
  now destruct (AdjWin.move_loop prof procs).
Qed.

(** X14: the watcher with the placement tool it starts, both on the same
    configuration, for a computed state that is not the sentinel, not yet
    in the state file, and does not start with a dash.  If the state's
    name is no key of the configuration, the tool ends with status 1, the
    run fails and the state is not saved; if it names a profile and the
    window inventory can be built, the tool is called once and the state
    is saved. *)
Theorem watcher_with_placement_tool (conf : Conf) (drm : list DrmEntry)
    (state : option string) (wl_out ps_out : string)
    (mons : list (option Monitor)) (name : string) :
  get_conn_monitors drm conf = Ok mons ->
  get_cur_state_name mons conf = Ok (Some name) ->
  name <> UNKNOWN_STATE ->
  state <> Some name ->
  String.prefix "-" name = false ->
  (name ∉ dict_keys conf ->
   run_result (main false conf
                 (mkWorld drm state (adjwin_exit_of conf wl_out ps_out)))
     = Raise (CalledProcessError 1%Z) /\
   run_state_file (main false conf
                     (mkWorld drm state (adjwin_exit_of conf wl_out ps_out)))
     = state) /\
  (forall prof procs cache,
     dict_get name conf = Some (CProfile prof) ->
     AdjWin.get_proc_info wl_out ps_out ∅ = Ok (procs, cache) ->
     main false conf (mkWorld drm state (adjwin_exit_of conf wl_out ps_out))
       = mkRun [RunAdjwin name; WriteState name] (Some name) (Ok 0%Z)).
Proof.
  intros Hm Hc Hn Hs _.
  set (w := mkWorld drm state (adjwin_exit_of conf wl_out ps_out)).
  assert (Hrun : main false conf w = adjust_windows name w []).
  { rewrite (main_classified conf w mons (Some name) Hm Hc).
    cbn [state_of warnings]. now rewrite bool_decide_eq_false_2 by exact Hs. }
  rewrite Hrun. unfold adjust_windows.
  destruct (String.eqb_spec name UNKNOWN_STATE) as [?|_]; [contradiction|].
  cbn [negb w_adjwin_exit w]. split.
  - intros Hk. rewrite (adjwin_fails_without_profile _ _ _ _ Hk).
    split; reflexivity.
  - intros prof procs cache Hk Hp.
    rewrite (adjwin_succeeds_with_profile _ _ _ _ _ _ _ Hk Hp). reflexivity.
Qed.

Lemma watcher_with_placement_tool_witness :
  run_result
    (main false
       [(MON_MAP, CMonMap [("built in", MBuiltIn panel)])]
       (mkWorld [mkDrm "card0-DP-1" (Some edid_panel)] None
          (adjwin_exit_of [(MON_MAP, CMonMap [("built in", MBuiltIn panel)])]
             WinSamples.wl0 WinSamples.ps0)))
    = Raise (CalledProcessError 1%Z).
Proof.
  apply (watcher_with_placement_tool
           [(MON_MAP, CMonMap [("built in", MBuiltIn panel)])]
           [mkDrm "card0-DP-1" (Some edid_panel)] None
           WinSamples.wl0 WinSamples.ps0 [Some MonPanel] "laptop").
  - vm_compute. reflexivity.
  - vm_compute. reflexivity.
  - discriminate.
  - discriminate.
  - reflexivity.
  - apply (bool_decide_eq_true_1
             ("laptop" ∉ dict_keys
                [(MON_MAP, CMonMap [("built in", MBuiltIn panel)])])).
    vm_compute. reflexivity.
Defined.

End RunFacts.

(** ** Further properties of the matcher *)

Module MatcherFacts.
Import Config AdjWin PyStr Notions Samples WinSamples PlacementFacts.

(** The windows left are the inventory with some windows taken out, in
    the order they had; every call pairs a rule with a window whose title
    contains the rule's name. *)
Lemma move_loop_sound (prof : list Rule) (procs : list ProcInfo) :
  (move_loop prof procs).2 `sublist_of` procs /\
  Forall (fun c => contains (r_name c.2) (name c.1) = true)
         (move_loop prof procs).1.
Proof.
  revert procs. induction prof as [|win rest IH]; intros procs.
  - split; [reflexivity | constructor].
  - destruct (find_window 0 win procs) as [[j pi]|] eqn:Hf.
    + apply find_window_Some in Hf
        as (before & after & -> & _ & Hbefore & Hpi).
      rewrite (move_loop_found win rest before pi after Hbefore Hpi).
      destruct (IH (before ++ after)) as [Hsub Hall]. cbn [fst snd]. split.
      * etransitivity; [exact Hsub|].
        apply sublist_app; [reflexivity | now apply sublist_cons].
      * constructor; [exact Hpi | exact Hall].
    + apply find_window_None in Hf. rewrite (move_loop_skipped _ _ _ Hf).
      apply IH.
Qed.

(** A rule that did not fire matches none of the windows left. *)
Lemma move_loop_maximal (prof : list Rule) (procs : list ProcInfo)
    (win : Rule) (q : ProcInfo) :
  win ∈ prof ->
  q ∈ (move_loop prof procs).2 ->
  contains (r_name win) (name q) = true ->
  win ∈ map snd (move_loop prof procs).1.
Proof.
  revert procs. induction prof as [|r rest IH]; intros procs Hwin Hq Hc.
  - inversion Hwin.
  - destruct (find_window 0 r procs) as [[j pi]|] eqn:Hf.
    + apply find_window_Some in Hf
        as (before & after & -> & _ & Hbefore & Hpi).
      rewrite (move_loop_found r rest before pi after Hbefore Hpi) in *.
      cbn [fst snd map] in *.
      apply elem_of_cons in Hwin as [->|Hwin]; [apply list_elem_of_here|].
      apply list_elem_of_further. now apply (IH (before ++ after)).
    + apply find_window_None in Hf.
      rewrite (move_loop_skipped _ _ _ Hf) in *.
      apply elem_of_cons in Hwin as [->|Hwin]; [|now apply (IH procs)].
      exfalso. rewrite Forall_forall in Hf.
      assert (Hin : q ∈ procs).
      { destruct (move_loop_sound rest procs) as [Hsub _].
        eapply elem_of_sublist; eassumption. }
      specialize (Hf q Hin). congruence.
Qed.

Lemma commands_wids (procs : list ProcInfo) (calls : list (ProcInfo * Rule)) :
  Forall (fun c => c.1 ∈ procs) calls ->
  Forall (fun c => cmd_wid c ∈ map wid procs) (commands calls).
Proof.
  unfold commands. induction 1 as [|[pi win] calls Hpi _ IH]; [constructor|].
  cbn [flat_map set_window app].
  assert (Hw : wid pi ∈ map wid procs)
    by (apply list_elem_of_fmap; now exists pi).
  constructor; [exact Hw|]. constructor; [exact Hw | exact IH].
Qed.

(** X15: every placement is justified and nothing else is touched: each
    call pairs a rule of the profile with a window of the inventory whose
    title contains the rule's name, the commands name window ids of the
    inventory only, and the windows not placed stay in the list in their
    order. *)
Theorem move_windows_sound (procs : list ProcInfo) (conf : Conf)
    (profile : string) :
  Forall (fun c => c.1 ∈ procs /\ c.2 ∈ rules_of conf profile /\
                   contains (r_name c.2) (name c.1) = true)
         (mv_calls (move_windows procs conf profile)) /\
  Forall (fun c => cmd_wid c ∈ map wid procs)
         (commands (mv_calls (move_windows procs conf profile))) /\
  mv_procs (move_windows procs conf profile) `sublist_of` procs.
Proof.
  destruct (move_windows_calls procs conf profile) as [-> ->].
  destruct (move_loop_sound (rules_of conf profile) procs) as [Hsub Hall].
  destruct (move_loop_assignment (rules_of conf profile) procs)
    as [Hrules Hperm].
  assert (Hcalls : Forall (fun c => c.1 ∈ procs /\
                                    c.2 ∈ rules_of conf profile /\
                                    contains (r_name c.2) (name c.1) = true)
                          (move_loop (rules_of conf profile) procs).1).
  { rewrite Forall_forall in Hall. apply Forall_forall. intros c Hc.
    split; [|split; [|now apply Hall]].
    - rewrite <- Hperm. apply elem_of_app. left.
      apply list_elem_of_fmap. now exists c.
    - eapply elem_of_sublist; [|exact Hrules].
      apply list_elem_of_fmap. now exists c. }
  split; [exact Hcalls|]. split; [|exact Hsub].
  apply commands_wids. eapply Forall_impl; [exact Hcalls|].
  now intros c (Hc & _).
Qed.

(** X16: the matcher leaves no window that a rule could still take: when a
    window is left and a rule of the profile fits its title, that rule was
    used for another window. *)
Theorem move_windows_maximal (procs : list ProcInfo) (conf : Conf)
    (profile : string) (win : Rule) (q : ProcInfo) :
  win ∈ rules_of conf profile ->
  q ∈ mv_procs (move_windows procs conf profile) ->
  contains (r_name win) (name q) = true ->
  win ∈ map snd (mv_calls (move_windows procs conf profile)).
Proof.
  destruct (move_windows_calls procs conf profile) as [-> ->].
  apply move_loop_maximal.
Qed.

Lemma move_windows_maximal_witness :
  rule2 ∈ map snd (mv_calls (move_windows [win2; win2] conf0 "work")).
Proof.
  apply (move_windows_maximal [win2; win2] conf0 "work" rule2 win2).
  - change (rule2 ∈ [rule1; rule2]).
    apply list_elem_of_further, list_elem_of_here.
  - assert (H : mv_procs (move_windows [win2; win2] conf0 "work") = [win2])
      by (vm_compute; reflexivity).
    rewrite H. apply list_elem_of_here.
  - vm_compute. reflexivity.
Defined.

Lemma commands_length (calls : list (ProcInfo * Rule)) :
  length (commands calls) = 2 * length calls.
Proof.
  unfold commands. induction calls as [|[pi win] calls IH]; [reflexivity|].
  cbn [flat_map set_window app length]. rewrite IH. lia.
Qed.

(** X17: counting: at most as many windows are placed as there are rules and
    as there are windows, each with two commands, and the windows left are
    the rest. *)
Theorem move_windows_counts (procs : list ProcInfo) (conf : Conf)
    (profile : string) :
  length (mv_calls (move_windows procs conf profile))
    <= Nat.min (length (rules_of conf profile)) (length procs) /\
  length (commands (mv_calls (move_windows procs conf profile)))
    = 2 * length (mv_calls (move_windows procs conf profile)) /\
  length (mv_procs (move_windows procs conf profile))
    = length procs - length (mv_calls (move_windows procs conf profile)).
Proof.
  destruct (move_windows_calls procs conf profile) as [-> ->].
  destruct (move_loop_assignment (rules_of conf profile) procs)
    as [Hrules Hperm].
  apply sublist_length in Hrules. apply Permutation_length in Hperm.
  rewrite length_app in Hperm. rewrite !length_map in *.
  split; [lia|]. split; [apply commands_length | lia].
Qed.

End MatcherFacts.

(** ** Further properties of the inventory *)

Module InventoryMore.
Import Config AdjWin PyStr Notions FieldFacts InventoryFacts Samples WinSamples.

(** *** The process table *)

Lemma procs_loop_entries (lines : list string) (ret table : gmap Z (list string)) :
  (forall k parts, ret !! k = Some parts -> entry_ok k parts) ->
  procs_loop lines ret = Ok table ->
  forall k parts, table !! k = Some parts -> entry_ok k parts.
Proof.
  revert ret. induction lines as [|l lines IH]; intros ret Hret; simpl.
  - now intros [= <-].
  - destruct (startswith "USER" (strip l) || String.eqb (strip l) "");
      [now apply IH|].
    rewrite strip_idem.
    intros (f & Hf & (k0 & Hint & H)%rbind_Ok)%rbind_Ok.
    apply index_Ok in Hf.
    apply (IH (<[k0 := split_max 10 (strip l)]> ret)); [|exact H].
    intros k parts Hk. destruct (decide (k0 = k)) as [->|Hne].
    + rewrite lookup_insert_eq in Hk. injection Hk as <-.
      split; [|now exists f]. split.
      * apply lookup_lt_Some in Hf. lia.
      * rewrite fields_split_max. lia.
    + rewrite lookup_insert_ne in Hk by exact Hne. now apply Hret.
Qed.

(** X18: every entry of the process table has between two and eleven
    fields, and its second field is its key. *)
Theorem get_procs_entries (ps_out : string) (table : gmap Z (list string))
    (k : Z) (parts : list string) :
  _get_procs ps_out = Ok table ->
  table !! k = Some parts ->
  entry_ok k parts.
Proof.
  intros Ht.
  apply (procs_loop_entries (split_on newline ps_out) ∅ table); [|exact Ht].
  intros k' parts' H. rewrite lookup_empty in H. discriminate.
Qed.

Lemma get_procs_entries_witness :
  entry_ok 6 ["v"; "6"].
Proof.
  destruct (_get_procs ps0) as [table|e] eqn:Ht.
  - apply (get_procs_entries ps0 table 6 ["v"; "6"] Ht).
    vm_compute in Ht. injection Ht as <-. vm_compute. reflexivity.
  - vm_compute in Ht. discriminate.
Defined.

Lemma procs_loop_app (l1 l2 : list string) (ret : gmap Z (list string)) :
  procs_loop (l1 ++ l2) ret = (t <-- procs_loop l1 ret ;; procs_loop l2 t).
Proof.
  revert ret. induction l1 as [|l l1 IH]; intros ret; [reflexivity|].
  cbn [app procs_loop].
  destruct (startswith "USER" (strip l) || String.eqb (strip l) "");
    [apply IH|].
  destruct (index (split_max 10 (strip (strip l))) 1) as [f|e];
    cbn [rbind]; [|reflexivity].
  destruct (int f); cbn [rbind]; [apply IH | reflexivity].
Qed.

(** X19: the process table keeps the last line of a pid: a further line of
    the listing, accepted for the pid [k], puts its fields under [k] and
    leaves every other entry alone. *)
Theorem get_procs_last_line_wins (ps_out l : string)
    (table : gmap Z (list string)) (f : string) (k : Z) :
  _get_procs ps_out = Ok table ->
  split_on newline l = [l] ->
  startswith "USER" (strip l) = false ->
  strip l <> "" ->
  split l !! 1 = Some f ->
  int f = Ok k ->
  _get_procs (ps_out +:+ String newline l)
    = Ok (<[k := split_max 10 (strip l)]> table).
Proof.
  intros Ht Hl Hu Hb Hf Hint. unfold _get_procs in *.
  rewrite ExtractorFacts.split_on_app, procs_loop_app, Ht, Hl.
  cbn [rbind procs_loop]. rewrite Hu.
  destruct (String.eqb_spec (strip l) "") as [?|_]; [contradiction|].
  cbn [orb]. rewrite strip_idem.
  assert (Hi : index (split_max 10 (strip l)) 1 = Ok f).
  { apply index_Ok. rewrite split_max_lookup by lia. now rewrite split_strip. }
  rewrite Hi. cbn [rbind]. rewrite Hint. reflexivity.
Qed.

Lemma get_procs_last_line_wins_witness :
  _get_procs (ps0 +:+ String newline "w 5 bash")
    = Ok (<[5%Z := ["w"; "5"; "bash"]]>
            (<[6%Z := ["v"; "6"]]>
               (<[5%Z := split_max 10
                    "u 5 0.0 0.1 100 200 ? Ss 10:00 0:00 /usr/bin/gnome-terminal --x"]>
                  ∅))).
Proof.
  apply (get_procs_last_line_wins ps0 "w 5 bash" _ "5" 5%Z);
    vm_compute; try reflexivity.
  discriminate.
Defined.

(** *** The records *)

Lemma is_shell_inv (ps_out : string) (pid : Z)
    (cache cache' : gmap Z (list string)) (b : bool) :
  cache_ok ps_out cache ->
  is_shell ps_out pid cache = Ok (b, cache') ->
  _get_procs ps_out = Ok cache' /\
  exists parts cmd, cache' !! pid = Some parts /\ parts !! 10 = Some cmd /\
                    b = contains "gnome-terminal" cmd.
Proof.
  intros Hc. unfold is_shell.
  intros (c1 & Hc1 & H)%rbind_Ok.
  assert (Ht : _get_procs ps_out = Ok c1).
  { case_bool_decide as He; [exact Hc1|].
    injection Hc1 as <-. destruct Hc as [?|?]; [contradiction | assumption]. }
  destruct (c1 !! pid) as [parts|] eqn:Hlk; [|discriminate].
  apply rbind_Ok in H as (cmd & Hcmd%index_Ok & [= <- <-]).
  split; [exact Ht|]. now exists parts, cmd.
Qed.

Lemma int_field_strip (line : string) (i : nat) (z : Z) :
  i < 8 ->
  (f <-- index (split_max 8 (strip line)) i ;; int f) = Ok z ->
  int_field line i z.
Proof.
  intros Hi (f & Hf%index_Ok & Hint)%rbind_Ok.
  rewrite split_max_lookup, split_strip in Hf by exact Hi. now exists f.
Qed.

Lemma new_ProcInfo_inv (ps_out line : string)
    (cache cache' : gmap Z (list string)) (pi : ProcInfo) :
  cache_ok ps_out cache ->
  new_ProcInfo ps_out line cache = Ok (pi, cache') ->
  _get_procs ps_out = Ok cache' /\ describes ps_out line pi.
Proof.
  intros Hc. unfold new_ProcInfo, _parse_input.
  intros (w & c1 & [Hw ->]%clift_Ok & H)%cbind_Ok.
  apply cbind_Ok in H as (d & c1 & [Hd ->]%clift_Ok & H).
  apply cbind_Ok in H as (p & c1 & [Hp ->]%clift_Ok & H).
  apply cbind_Ok in H as (x & c1 & [Hx ->]%clift_Ok & H).
  apply cbind_Ok in H as (y & c1 & [Hy ->]%clift_Ok & H).
  apply cbind_Ok in H as (wd & c1 & [Hwd ->]%clift_Ok & H).
  apply cbind_Ok in H as (h & c1 & [Hh ->]%clift_Ok & H).
  apply cbind_Ok in H as (n & c1 & [Hn ->]%clift_Ok & H).
  apply cbind_Ok in H as (sh & c1 & Hsh & H).
  injection H as <- <-.
  destruct (is_shell_inv ps_out p cache c1 sh Hc Hsh)
    as [Ht (parts & cmd & Hlk & Hcmd & ->)].
  split; [exact Ht|]. unfold describes. cbn.
  apply index_Ok in Hw, Hn.
  rewrite split_max_lookup, split_strip in Hw by lia.
  repeat split; try (apply int_field_strip; [lia | assumption]);
    [exact Hw | exact Hn|].
  now exists c1, parts, cmd.
Qed.

Lemma info_loop_records (ps_out : string) (lines : list string)
    (ret recs : list ProcInfo) (cache cache' : gmap Z (list string)) :
  cache_ok ps_out cache ->
  info_loop ps_out lines ret cache = Ok (recs, cache') ->
  exists new, recs = ret ++ new /\
              Forall2 (describes ps_out) (List.filter nonblank lines) new.
Proof.
  revert ret cache. induction lines as [|line lines IH]; intros ret cache Hc.
  - intros [= <- _]. exists []. split; [now rewrite app_nil_r | constructor].
  - cbn [info_loop List.filter]. unfold nonblank at 1.
    destruct (String.eqb (strip line) ""); cbn [negb].
    + apply IH. exact Hc.
    + intros (pi & c1 & Hpi & H)%cbind_Ok.
      destruct (new_ProcInfo_inv _ _ _ _ _ Hc Hpi) as [Ht Hd].
      destruct (IH _ _ (or_intror Ht) H) as (new & -> & Hall).
      exists (pi :: new). split; [now rewrite <- app_assoc|].
      now constructor.
Qed.

(** X20: the inventory has one record for each line of the window listing
    that is not blank, in the order of the listing, and each record is the
    one of its line. *)
Theorem get_proc_info_records (wl_out ps_out : string)
    (recs : list ProcInfo) (cache : gmap Z (list string)) :
  get_proc_info wl_out ps_out ∅ = Ok (recs, cache) ->
  Forall2 (describes ps_out)
          (List.filter nonblank (split_on newline wl_out)) recs.
Proof.
  intros H. unfold get_proc_info in H.
  destruct (info_loop_records _ _ _ _ _ _ (or_introl eq_refl) H)
    as (new & -> & Hall).
  exact Hall.
Qed.

Lemma get_proc_info_records_witness :
  exists recs,
    Forall2 (describes ps0) (List.filter nonblank (split_on newline wl0)) recs
    /\ map name recs = ["My Title here"].
Proof.
  destruct (get_proc_info wl0 ps0 ∅) as [[recs cache]|e] eqn:H.
  - exists recs. split.
    + exact (get_proc_info_records wl0 ps0 recs cache H).
    + vm_compute in H. injection H as <- _. reflexivity.
  - vm_compute in H. discriminate.
Defined.

End InventoryMore.

(** ** The desktop queries *)

Module DeskFacts.
Import PyStr Desk AdjWin Notions FieldFacts InventoryFacts Samples.

Lemma desktop_loop_None (lines : list string) :
  desktop_loop lines = Ok None <-> Forall unstarred lines.
Proof.
  induction lines as [|l lines IH]; cbn [desktop_loop].
  - split; [constructor | reflexivity].
  - unfold index. destruct (split l !! 1) as [mark|] eqn:Hm; cbn [rbind].
    + destruct (String.eqb_spec mark "*") as [->|Hne].
      * split.
        -- destruct (split l !! 0); cbn [rbind]; [|discriminate].
           destruct (int s); discriminate.
        -- intros H. inversion H as [|? ? (mark & Hm' & Hne) _]; subst.
           congruence.
      * rewrite IH. split.
        -- intros H. constructor; [now exists mark | exact H].
        -- now inversion 1.
    + split; [discriminate|].
      intros H. inversion H as [|? ? (mark & Hm' & _) _]; subst. congruence.
Qed.

Lemma desktop_loop_Some (lines : list string) (d : Z) :
  desktop_loop lines = Ok (Some d) <->
  exists before line after,
    lines = before ++ line :: after /\
    Forall unstarred before /\
    split line !! 1 = Some "*" /\
    int_field line 0 d.
Proof.
  induction lines as [|l lines IH]; cbn [desktop_loop].
  - split; [discriminate|].
    intros ([|x0 b0] & line & after & H & _); discriminate.
  - unfold index. destruct (split l !! 1) as [mark|] eqn:Hm; cbn [rbind].
    + destruct (String.eqb_spec mark "*") as [->|Hne].
      * split.
        -- destruct (split l !! 0) as [f|] eqn:Hf; cbn [rbind]; [|discriminate].
           destruct (int f) as [z|e] eqn:Hint; cbn [rbind]; [|discriminate].
           intros [= <-]. exists [], l, lines.
           repeat split; [constructor | exact Hm | now exists f].
        -- intros ([|x0 b0] & line & after & Heq & Hb & Hstar & f & Hf & Hint).
           ++ injection Heq as <- <-. rewrite Hf. cbn [rbind].
              rewrite Hint. reflexivity.
           ++ injection Heq as <- ->.
              inversion Hb as [|? ? (mark & Hm' & Hne) _]; subst. congruence.
      * rewrite IH. split.
        -- intros (before & line & after & -> & Hb & Hrest).
           exists (l :: before), line, after.
           split; [reflexivity|]. split; [|exact Hrest].
           constructor; [now exists mark | exact Hb].
        -- intros ([|x0 b0] & line & after & Heq & Hb & Hstar & Hd).
           ++ injection Heq as <- <-. congruence.
           ++ injection Heq as <- ->. inversion Hb; subst.
              now exists b0, line, after.
    + split; [discriminate|].
      intros ([|x0 b0] & line & after & Heq & Hb & Hstar & Hd).
      * injection Heq as <- <-. congruence.
      * injection Heq as <- ->.
        inversion Hb as [|? ? (mark & Hm' & _) _]; subst. congruence.
Qed.

(** X21: [get_current_desktop] returns the number in front of the first
    star: it returns [d] exactly when some line has a star as second field
    and the integer [d] as first, and every line before it has a second
    field that is no star; it returns [None] only when every line is of
    that kind, hence never on a listing with an empty line, such as one
    that ends with a newline. *)
Theorem get_current_desktop_first_star (out : string) :
  (forall d,
     get_current_desktop out = Ok (Some d) <->
     exists before line after,
       split_on newline out = before ++ line :: after /\
       Forall unstarred before /\
       split line !! 1 = Some "*" /\
       int_field line 0 d) /\
  (get_current_desktop out = Ok None <->
   Forall unstarred (split_on newline out)) /\
  (forall l, l ∈ split_on newline out -> fields l < 2 ->
             get_current_desktop out <> Ok None).
Proof.
  unfold get_current_desktop.
  split; [intros d; apply desktop_loop_Some|].
  split; [apply desktop_loop_None|].
  intros l Hin Hl H. apply desktop_loop_None in H.
  rewrite Forall_forall in H. destruct (H l Hin) as (mark & Hm & _).
  apply lookup_lt_Some in Hm. unfold fields in Hl. lia.
Qed.

Lemma get_current_desktop_first_star_witness :
  get_current_desktop
    (text [ "0  - DG: 3840x1080  VP: N/A  WA: 0,27 3840x1053  Web";
            "1  * DG: 3840x1080  VP: 0,0  WA: 0,27 3840x1053  Code";
            "" ])
    = Ok (Some 1%Z).
Proof.
  apply get_current_desktop_first_star.
  exists [ "0  - DG: 3840x1080  VP: N/A  WA: 0,27 3840x1053  Web" ],
         "1  * DG: 3840x1080  VP: 0,0  WA: 0,27 3840x1053  Code", [ "" ].
  split; [vm_compute; reflexivity|]. split.
  - constructor; [|constructor]. exists "-". split; [reflexivity | discriminate].
  - split; [reflexivity|]. exists "1". split; reflexivity.
Defined.

(** *** The work area *)

Lemma int_body_raises (sign : Z) (t : string) (e : exn) :
  match digits_go 0 false t with
  | Some v => Ok (sign * v)%Z
  | None => Raise ValueError
  end = Raise e ->
  e = ValueError.
Proof. destruct (digits_go 0 false t); intros H; now inversion H. Qed.

Lemma int_raises (s : string) (e : exn) : int s = Raise e -> e = ValueError.
Proof.
  unfold int. destruct (strip s) as [|c t].
  - apply (int_body_raises 1).
  - destruct c as [[] [] [] [] [] [] [] []];
      first [apply (int_body_raises 1) | apply (int_body_raises (-1))].
Qed.

Lemma ints_Ok (l : list string) (zs : list Z) :
  ints l = Ok zs <-> Forall2 (fun f z => int f = Ok z) l zs.
Proof.
  revert zs. induction l as [|f l IH]; intros zs; cbn [ints].
  - split; [intros [= <-]; constructor | now inversion 1].
  - split.
    + intros (z & Hz & (zs' & Hzs & [= <-])%rbind_Ok)%rbind_Ok.
      constructor; [exact Hz | now apply IH].
    + inversion 1 as [|? z ? zs' Hz Hzs]; subst.
      rewrite Hz. cbn [rbind]. apply IH in Hzs. now rewrite Hzs.
Qed.

Lemma ints_raises (l : list string) (e : exn) :
  ints l = Raise e -> e = ValueError.
Proof.
  induction l as [|f l IH]; cbn [ints]; [discriminate|].
  destruct (int f) as [z|e'] eqn:Hf; cbn [rbind].
  - destruct (ints l) as [zs|e'']; cbn [rbind]; [discriminate|].
    intros [= <-]. now apply IH.
  - intros [= <-]. now apply int_raises in Hf.
Qed.

Lemma work_area_cases (out line : string) (rest : list string) :
  split_on newline out = line :: rest ->
  match split line !! 7 with
  | None => get_work_area_off out = Raise IndexError
  | Some xy =>
      match ints (split_on comma xy) with
      | Ok [x; y] => get_work_area_off out = Ok (x, y)
      | _ => get_work_area_off out = Raise ValueError
      end
  end.
Proof.
  intros Hl. unfold get_work_area_off. rewrite Hl.
  change (index (line :: rest) 0) with (@Ok string line).
  cbn [rbind]. unfold index.
  destruct (split line !! 7) as [xy|]; cbn [rbind]; [|reflexivity].
  destruct (ints (split_on comma xy)) as [zs|e] eqn:Hz; cbn [rbind].
  - destruct zs as [|x [|y [|? ?]]]; reflexivity.
  - now apply ints_raises in Hz as ->.
Qed.

(** X22: [get_work_area_off] reads the eighth field of the first line: it
    returns [(x, y)] exactly when that field is two integers joined by one
    comma; it raises [IndexError] exactly when the first line has fewer
    than eight fields, and [ValueError] in every other case of failure. *)
Theorem get_work_area_off_eighth_field (out : string) :
  (forall x y,
     get_work_area_off out = Ok (x, y) <->
     exists line rest xy fx fy,
       split_on newline out = line :: rest /\
       split line !! 7 = Some xy /\
       split_on comma xy = [fx; fy] /\
       int fx = Ok x /\ int fy = Ok y) /\
  (forall line rest e,
     split_on newline out = line :: rest ->
     get_work_area_off out = Raise e ->
     (fields line < 8 /\ e = IndexError) \/
     (8 <= fields line /\ e = ValueError)).
Proof.
  destruct (split_on newline out) as [|line rest] eqn:Hl;
    [now apply ExtractorFacts.split_on_nonempty in Hl|].
  pose proof (work_area_cases out line rest Hl) as Hc.
  destruct (split line !! 7) as [xy|] eqn:Hxy.
  - assert (H8 : 8 <= fields line)
      by (apply lookup_lt_Some in Hxy; unfold fields; lia).
    destruct (ints (split_on comma xy)) as [zs|e0] eqn:Hz.
    + apply ints_Ok in Hz. split.
      * intros x y. split.
        -- intros Hxy0.
           destruct zs as [|x' [|y' [|? ?]]]; rewrite Hxy0 in Hc;
             try discriminate Hc.
           injection Hc as <- <-.
           inversion Hz as [|fx ? l1 ? Hx Hz1 Heq]; subst.
           inversion Hz1 as [|fy ? l2 ? Hy Hz2]; subst.
           inversion Hz2; subst.
           exists line, rest, xy, fx, fy. auto.
        -- intros (line' & rest' & xy' & fx & fy & Hl' & Hxy' & Hs
                   & Hx & Hy).
           injection Hl' as <- <-. rewrite Hxy in Hxy'. injection Hxy' as <-.
           rewrite Hs in Hz.
           inversion Hz as [|? x' ? l1 Hx' Hz1]; subst.
           inversion Hz1 as [|? y' ? l2 Hy' Hz2]; subst.
           inversion Hz2; subst.
           cbn in Hc. rewrite Hc. congruence.
      * intros line' rest' e Hl' He. injection Hl' as <- <-.
        right. split; [exact H8|].
        destruct zs as [|x' [|y' [|? ?]]]; rewrite He in Hc;
          inversion Hc; reflexivity.
    + split.
      * intros x y. rewrite Hc. split; [discriminate|].
        intros (line' & rest' & xy' & fx & fy & Hl' & Hxy' & Hs
                & Hx & Hy).
        injection Hl' as <- <-. rewrite Hxy in Hxy'. injection Hxy' as <-.
        assert (Hok : ints (split_on comma xy) = Ok [x; y]).
        { apply ints_Ok. rewrite Hs. repeat constructor; assumption. }
        congruence.
      * intros line' rest' e Hl' He. injection Hl' as <- <-.
        right. split; [exact H8|].
        rewrite He in Hc. inversion Hc; reflexivity.
  - split.
    + intros x y. rewrite Hc. split; [discriminate|].
      intros (line' & rest' & xy' & fx & fy & Hl' & Hxy' & _).
      injection Hl' as <- <-. congruence.
    + intros line' rest' e Hl' He. injection Hl' as <- <-. left.
      rewrite He in Hc. inversion Hc.
      split; [|reflexivity]. apply lookup_ge_None in Hxy. unfold fields. lia.
Qed.

Lemma get_work_area_off_eighth_field_witness :
  get_work_area_off
    (text [ "0  * DG: 3840x1080  VP: 0,0  WA: 0,27 3840x1053  Web"; "" ])
    = Ok (0%Z, 27%Z).
Proof.
  apply get_work_area_off_eighth_field.
  exists "0  * DG: 3840x1080  VP: 0,0  WA: 0,27 3840x1053  Web", [ "" ],
         "0,27", "0", "27".
  repeat split; vm_compute; reflexivity.
Defined.

End DeskFacts.

(** ** The placement tool from listing to commands *)

Module ToolFacts.
Import Config AdjWin PyStr Notions InventoryMore MatcherFacts PlacementFacts
  Samples WinSamples.

Lemma describes_wids (ps_out : string) (lines : list string)
    (recs : list ProcInfo) :
  Forall2 (describes ps_out) lines recs ->
  map wid recs = map first_field lines.
Proof.
  induction 1 as [|line pi lines recs Hd _ IH]; [reflexivity|].
  cbn [map]. rewrite IH. f_equal.
  destruct Hd as (Hw & _). unfold first_field.
  destruct (split line) as [|f fs]; [discriminate|]. now injection Hw as ->.
Qed.

(** X23: the tool only ever addresses windows of the listing: the window id
    of every command it sends is the first field of a line of the window
    listing that is not blank. *)
Theorem main_commands_in_listing (profile : string) (conf : Conf)
    (wl_out ps_out : string) :
  Forall (fun c => cmd_wid c ∈
            map first_field (List.filter nonblank (split_on newline wl_out)))
         (main profile conf wl_out ps_out).1.
Proof.
  unfold main.
  destruct (get_proc_info wl_out ps_out ∅) as [[procs cache]|e] eqn:Hp;
    [|constructor].
  destruct (negb (bool_decide (is_Some (dict_get profile conf))));
    [constructor|]. cbv zeta. cbn [fst].
  unfold get_proc_info in Hp.
  destruct (InventoryMore.info_loop_records _ _ _ _ _ _ (or_introl eq_refl) Hp)
    as (new & Hr & Hall).
  cbn [app] in Hr. subst procs.
  rewrite <- (describes_wids _ _ _ Hall).
  apply commands_wids.
  destruct (move_windows_calls new conf profile) as [-> _].
  destruct (move_loop_assignment (rules_of conf profile) new) as [_ Hperm].
  apply Forall_forall. intros c Hc. rewrite <- Hperm.
  apply elem_of_app. left. apply list_elem_of_fmap. now exists c.
Qed.

(** X24: with a configured profile and an inventory that can be built, the
    tool ends normally after the commands of the matcher, two for each
    window placed. *)
Theorem main_places_profile (profile : string) (conf : Conf)
    (wl_out ps_out : string) (prof : list Rule) (procs : list ProcInfo)
    (cache : gmap Z (list string)) :
  dict_get profile conf = Some (CProfile prof) ->
  get_proc_info wl_out ps_out ∅ = Ok (procs, cache) ->
  main profile conf wl_out ps_out
    = (commands (move_loop prof procs).1, Ok tt) /\
  exit_status (main profile conf wl_out ps_out).2 = 0%Z /\
  length (main profile conf wl_out ps_out).1
    = 2 * length (move_loop prof procs).1.
Proof.
  intros Hk Hp.
  assert (Hm : main profile conf wl_out ps_out
               = (commands (move_loop prof procs).1, Ok tt)).
  { unfold main. rewrite Hp, Hk. cbn [negb bool_decide].
    rewrite bool_decide_eq_true_2 by eauto. cbn [negb].
    unfold move_windows, getitem. rewrite Hk.
    now destruct (move_loop prof procs). }
  rewrite Hm. split; [reflexivity|]. split; [reflexivity|].
  apply commands_length.
Qed.

Lemma main_places_profile_witness :
  main "work" conf0 wl0 ps0 = ([], Ok tt).
Proof.
  destruct (get_proc_info wl0 ps0 ∅) as [[procs cache]|e] eqn:Hp.
  - destruct (main_places_profile "work" conf0 wl0 ps0 layout procs cache
                eq_refl Hp) as (-> & _).
    vm_compute in Hp. injection Hp as <- _. reflexivity.
  - vm_compute in Hp. discriminate.
Defined.

End ToolFacts.
